(** * resolved-resolv-conf: reading /etc/resolv.conf and publishing the
      managed copy

    A shallow embedding of [src/resolve/resolved-resolv-conf.c] of
    systemd-resolved: [manager_read_resolv_conf], the two line writers
    [write_resolv_conf_server] and [write_resolv_conf_search],
    [write_resolv_conf_contents] and [manager_write_resolv_conf].

    Conventions.
    - C [int]/[unsigned] values are [Z]; [unsigned] arithmetic is wrapped
      with [u32].  A [FILE*] opened for writing is the string written to
      it so far.
    - What the kernel answers to the system calls of one invocation is
      an explicit record, [Kernel]; the files below /run are a finite map
      from paths to files.
    - Messages handed to the logging macros are returned as a list, in
      the order in which they are emitted. *)

From Stdlib Require Import ZArith Lia Ascii.
From stdpp Require Import base strings pretty list gmap.

Local Open Scope Z_scope.

(** ** Strings *)

Definition nl : string := String "010"%char "".

(** [strlen] as a C integer. *)
Definition strlen (s : string) : Z := Z.of_nat (String.length s).

(** ** Constants *)

(** <resolv.h>: the resolver reads at most [MAXNS] name servers and
    [MAXDNSRCH] search domains. *)
Definition MAXNS : Z := 3.
Definition MAXDNSRCH : Z := 6.

(** <errno.h> *)
Definition ENOENT : Z := 2.

Definition PRIVATE_RESOLV_CONF : string := "/run/systemd/resolve/resolv.conf".

(** Wrap-around of [unsigned]. *)
Definition u32 (z : Z) : Z := z mod 2 ^ 32.

(** ** Data model *)

(** Result of a system call: the value, or the [errno] it left. *)
Inductive sysres (A : Type) : Type :=
| Ok (a : A)
| Err (errno : Z).
Arguments Ok {A} a.
Arguments Err {A} errno.

Record timespec := { tv_sec : Z; tv_nsec : Z }.

Record struct_stat := { st_dev : Z; st_ino : Z; st_mtim : timespec }.

(** Where a record comes from.  The source only names
    [DNS_SERVER_SYSTEM]; every other origin is [DNS_SERVER_OTHER]. *)
Inductive DnsServerType := DNS_SERVER_SYSTEM | DNS_SERVER_OTHER.

#[global] Instance DnsServerType_eq_dec : EqDecision DnsServerType.
Proof. solve_decision. Defined.

(** An address: its family and its octets. *)
Record in_addr := { family : Z; octets : list Z }.

#[global] Instance in_addr_eq_dec : EqDecision in_addr.
Proof. solve_decision. Defined.

Record DnsServer := {
  server_type : DnsServerType;
  server_address : in_addr;
  server_marked : bool
}.

Record DnsSearchDomain := {
  domain_type : DnsServerType;
  domain_name : string;
  domain_marked : bool
}.

(** The unicast scope, of which only the cache matters here. *)
Record DnsScope := { cache : list string }.

Record Manager := {
  read_resolv_conf : bool;
  resolv_conf_mtime : Z;
  dns_servers : list DnsServer;
  search_domains : list DnsSearchDomain;
  current_dns_server : option DnsServer;
  unicast_scope : option DnsScope
}.

Inductive LogLevel := LOG_ERR | LOG_WARNING.

(** One call of a logging macro: level, error number (0 when the macro
    takes none), format string and its string argument, if any. *)
Record LogEntry := {
  log_level : LogLevel;
  log_error : Z;
  log_format : string;
  log_arg : option string
}.

Definition log_warning (fmt : string) : LogEntry :=
  {| log_level := LOG_WARNING; log_error := 0; log_format := fmt; log_arg := None |}.

(** ** Collaborators

    Functions and macros of the repository that [resolved-resolv-conf.c]
    calls and whose bodies live in other files.  They are parameters of
    the development. *)
Class Externals := {
  (** [timespec_load]: a [struct timespec] as [usec_t]  *)
  timespec_load : timespec -> Z;
  (** value of the expression [log_warning_errno(error, ...)] *)
  log_warning_errno : Z -> Z;
  (** value of the expression [log_error_errno(error, ...)] *)
  log_error_errno : Z -> Z;
  (** [dns_server_string]: the textual form of a server's address, or
      [None] where [s->server_string] stays NULL *)
  dns_server_string : DnsServer -> option string;
  (** address parser behind [manager_add_dns_server_by_string]: the
      address, or the (negative) error *)
  ParseServerAddress : string -> Z + in_addr;
  (** domain parser behind [manager_parse_search_domains_and_warn] *)
  ParseDomainToken : string -> Z + string;
  (** [manager_compile_dns_servers]: result code and the ordered set *)
  manager_compile_dns_servers : Manager -> Z * list DnsServer;
  (** [manager_compile_search_domains]: result code and the ordered set *)
  manager_compile_search_domains : Manager -> Z * list string
}.

(** ** The writer *)

Section Writer.
Context `{Externals}.

Definition TOO_MANY_SERVERS : string :=
  "# Too many DNS servers configured, the following entries may be ignored." +:+ nl.

Definition TOO_MANY_DOMAINS : string :=
  " # Too many search domains configured, remaining ones ignored.".

Definition TOO_LONG_DOMAINS : string :=
  " # Total length of all search domains is too long, remaining ones ignored.".

(** [write_resolv_conf_server(s, f, count)]: the new [f], the new
    [*count] and what is logged. *)
Definition write_resolv_conf_server (s : DnsServer) (f : string) (count : Z)
  : string * Z * list LogEntry :=
  match dns_server_string s with
  | None =>
      (f, count, [log_warning "Our of memory, or invalid DNS address. Ignoring server."])
  | Some server_string =>
      let f1 := if count =? MAXNS then f +:+ TOO_MANY_SERVERS else f in
      let count1 := u32 (count + 1) in
      (f1 +:+ "nameserver " +:+ server_string +:+ nl, count1, [])
  end.

(** [write_resolv_conf_search(domain, f, count, length)]: the new [f],
    [*count] and [*length].  The sum [*length + strlen(domain)] is taken
    in [size_t], where it cannot wrap. *)
Definition write_resolv_conf_search (domain : string) (f : string) (count length : Z)
  : string * Z * Z :=
  if (MAXDNSRCH <=? count) || (256 <? length + strlen domain) then
    let f1 := if count =? MAXDNSRCH then f +:+ TOO_MANY_DOMAINS else f in
    let f2 := if length <=? 256 then f1 +:+ TOO_LONG_DOMAINS else f1 in
    (f2, count, length)
  else
    let length1 := u32 (length + strlen domain) in
    let count1 := u32 (count + 1) in
    ((f +:+ " ") +:+ domain, count1, length1).

(** [ORDERED_SET_FOREACH(s, dns, i) write_resolv_conf_server(s, f, &count);] *)
Fixpoint foreach_server (dns : list DnsServer) (f : string) (count : Z)
  : string * list LogEntry :=
  match dns with
  | [] => (f, [])
  | s :: rest =>
      let '(f1, count1, lg1) := write_resolv_conf_server s f count in
      let '(f2, lg2) := foreach_server rest f1 count1 in
      (f2, lg1 ++ lg2)
  end.

(** [ORDERED_SET_FOREACH(domain, domains, i)
       write_resolv_conf_search(domain, f, &count, &length);] *)
Fixpoint foreach_domain (domains : list string) (f : string) (count length : Z) : string :=
  match domains with
  | [] => f
  | domain :: rest =>
      let '(f1, count1, length1) := write_resolv_conf_search domain f count length in
      foreach_domain rest f1 count1 length1
  end.

Definition HEADER : string :=
  "# This file is managed by systemd-resolved(8). Do not edit." +:+ nl +:+
  "#" +:+ nl +:+
  "# Third party programs must not access this file directly, but" +:+ nl +:+
  "# only through the symlink at /etc/resolv.conf. To manage" +:+ nl +:+
  "# resolv.conf(5) in a different way, replace the symlink by a" +:+ nl +:+
  "# static file or a different symlink." +:+ nl +:+ nl.

(** The first block of [write_resolv_conf_contents]: the name servers. *)
Definition write_servers (dns : list DnsServer) (f : string) : string * list LogEntry :=
  match dns with
  | [] => (f +:+ "# No DNS servers known." +:+ nl, [])
  | _ => foreach_server dns f 0
  end.

(** The second block of [write_resolv_conf_contents]: the search line. *)
Definition write_search (domains : list string) (f : string) : string :=
  match domains with
  | [] => f
  | _ => foreach_domain domains (f +:+ "search") 0 0 +:+ nl
  end.

(** Everything [write_resolv_conf_contents] puts into [f] before it
    flushes, and what it logs on the way. *)
Definition resolv_conf_text (dns : list DnsServer) (domains : list string)
  : string * list LogEntry :=
  let '(f, lg) := write_servers dns HEADER in
  (write_search domains f, lg).

End Writer.

(** ** String helpers of the line parser *)

(** Modelled from the spec: [WHITESPACE] of string-util.h, which is not
    among the sources; the characters that "surrounding whitespace" and
    "whitespace-delimited" refer to: blank, tab, newline, carriage
    return. *)
Definition is_whitespace (c : ascii) : bool :=
  match c with
  | " " | "009" | "010" | "013" => true
  | _ => false
  end%char.

Fixpoint skip_whitespace (s : string) : string :=
  match s with
  | String c rest => if is_whitespace c then skip_whitespace rest else s
  | EmptyString => EmptyString
  end.

(** Modelled from the spec: [strstrip] of string-util.c, which is not
    among the sources: "strip surrounding whitespace". *)
Definition strstrip (s : string) : string :=
  String.rev (skip_whitespace (String.rev (skip_whitespace s))).

(** What follows [word] at the start of [s], if [s] starts with it. *)
Fixpoint startswith (s word : string) : option string :=
  match word, s with
  | EmptyString, _ => Some s
  | String a word', String b s' =>
      if Ascii.eqb a b then startswith s' word' else None
  | String _ _, EmptyString => None
  end.

(** Modelled from the spec: [first_word] of string-util.c, which is not
    among the sources: the argument of a line "whose first
    whitespace-delimited word is" [word], that is what follows the word
    and the whitespace after it; [None] when the line starts with
    another word. *)
Definition first_word (s word : string) : option string :=
  match word with
  | EmptyString => Some s
  | _ =>
      match startswith s word with
      | None => None
      | Some EmptyString => Some EmptyString
      | Some (String c rest) =>
          if is_whitespace c then Some (skip_whitespace (String c rest)) else None
      end
  end.

(** [*l == '#' || *l == ';'] *)
Definition is_comment (l : string) : bool :=
  match l with
  | String c _ => Ascii.eqb c "#"%char || Ascii.eqb c ";"%char
  | EmptyString => false
  end.

(** ** The collections *)

Definition set_server_marked (b : bool) (s : DnsServer) : DnsServer :=
  {| server_type := server_type s; server_address := server_address s;
     server_marked := b |}.

Definition set_domain_marked (b : bool) (d : DnsSearchDomain) : DnsSearchDomain :=
  {| domain_type := domain_type d; domain_name := domain_name d;
     domain_marked := b |}.

Definition set_dns_servers (l : list DnsServer) (m : Manager) : Manager :=
  {| read_resolv_conf := read_resolv_conf m;
     resolv_conf_mtime := resolv_conf_mtime m;
     dns_servers := l;
     search_domains := search_domains m;
     current_dns_server := current_dns_server m;
     unicast_scope := unicast_scope m |}.

Definition set_search_domains (l : list DnsSearchDomain) (m : Manager) : Manager :=
  {| read_resolv_conf := read_resolv_conf m;
     resolv_conf_mtime := resolv_conf_mtime m;
     dns_servers := dns_servers m;
     search_domains := l;
     current_dns_server := current_dns_server m;
     unicast_scope := unicast_scope m |}.

Definition set_resolv_conf_mtime (t : Z) (m : Manager) : Manager :=
  {| read_resolv_conf := read_resolv_conf m;
     resolv_conf_mtime := t;
     dns_servers := dns_servers m;
     search_domains := search_domains m;
     current_dns_server := current_dns_server m;
     unicast_scope := unicast_scope m |}.

(** Modelled from the spec: [dns_server_mark_all] of
    resolved-dns-server.c, which is not among the sources (4.3 step 1):
    every record "whose provenance is from system config" gets
    [marked = true]; the others are untouched. *)
Definition dns_server_mark_all (l : list DnsServer) : list DnsServer :=
  (fun s => if decide (server_type s = DNS_SERVER_SYSTEM)
            then set_server_marked true s else s) <$> l.

(** Modelled from the spec: [dns_search_domain_mark_all] of
    resolved-dns-search-domain.c, which is not among the sources (4.3
    step 1, "in both collections"). *)
Definition dns_search_domain_mark_all (l : list DnsSearchDomain) : list DnsSearchDomain :=
  (fun d => if decide (domain_type d = DNS_SERVER_SYSTEM)
            then set_domain_marked true d else d) <$> l.

(** Modelled from the spec: [dns_server_unlink_marked] of
    resolved-dns-server.c, which is not among the sources (4.3 step 4):
    "remove every record still marked". *)
Definition dns_server_unlink_marked (l : list DnsServer) : list DnsServer :=
  filter (fun s => server_marked s = false) l.

(** Modelled from the spec: [dns_search_domain_unlink_marked] of
    resolved-dns-search-domain.c, which is not among the sources (4.3
    step 4). *)
Definition dns_search_domain_unlink_marked (l : list DnsSearchDomain) : list DnsSearchDomain :=
  filter (fun d => domain_marked d = false) l.

(** Modelled from the spec: [dns_server_unlink_all] of
    resolved-dns-server.c, which is not among the sources (4.3 step 5):
    "remove all from-system-config records unconditionally". *)
Definition dns_server_unlink_all (l : list DnsServer) : list DnsServer :=
  filter (fun s => server_type s <> DNS_SERVER_SYSTEM) l.

(** Modelled from the spec: [dns_search_domain_unlink_all] of
    resolved-dns-search-domain.c, which is not among the sources (4.3
    step 5, "from both collections"). *)
Definition dns_search_domain_unlink_all (l : list DnsSearchDomain) : list DnsSearchDomain :=
  filter (fun d => domain_type d <> DNS_SERVER_SYSTEM) l.

(** Modelled from the spec: [manager_set_dns_server] of
    resolved-manager.c, which is not among the sources (4.3 step 6):
    "re-point the active DNS server selection"; the source passes the
    head of the server list. *)
Definition manager_set_dns_server (m : Manager) (s : option DnsServer) : Manager :=
  {| read_resolv_conf := read_resolv_conf m;
     resolv_conf_mtime := resolv_conf_mtime m;
     dns_servers := dns_servers m;
     search_domains := search_domains m;
     current_dns_server := s;
     unicast_scope := unicast_scope m |}.

(** Modelled from the spec: [dns_cache_flush] of resolved-dns-cache.c,
    which is not among the sources (4.3 step 7), under the guard
    [if (m->unicast_scope)] of the source. *)
Definition dns_cache_flush (m : Manager) : Manager :=
  {| read_resolv_conf := read_resolv_conf m;
     resolv_conf_mtime := resolv_conf_mtime m;
     dns_servers := dns_servers m;
     search_domains := search_domains m;
     current_dns_server := current_dns_server m;
     unicast_scope := (fun _ => {| cache := [] |}) <$> unicast_scope m |}.

Section Reader.
Context `{Externals}.

(** Modelled from the spec: [manager_add_dns_server_by_string] of
    resolved-manager.c, which is not among the sources (4.3 step 2): a
    parse error is handed back; "if a record with that address already
    exists, clear its marked flag; otherwise insert a new record" of the
    given provenance, unmarked, at the end of the collection. *)
Definition manager_add_dns_server_by_string
    (m : Manager) (type : DnsServerType) (a : string) : Z * Manager :=
  match ParseServerAddress a with
  | inl r => (r, m)
  | inr address =>
      if decide (address ∈ server_address <$> dns_servers m) then
        (0, set_dns_servers
              ((fun s => if decide (server_address s = address)
                         then set_server_marked false s else s) <$> dns_servers m) m)
      else
        (0, set_dns_servers
              (dns_servers m ++
                 [{| server_type := type; server_address := address;
                     server_marked := false |}]) m)
  end.

(** Add-or-unmark for one search domain (4.3 step 3: "processed
    identically to step 2"). *)
Definition manager_add_search_domain (m : Manager) (name : string) : Manager :=
  if decide (name ∈ domain_name <$> search_domains m) then
    set_search_domains
      ((fun d => if decide (domain_name d = name)
                 then set_domain_marked false d else d) <$> search_domains m) m
  else
    set_search_domains
      (search_domains m ++
         [{| domain_type := DNS_SERVER_SYSTEM; domain_name := name;
             domain_marked := false |}]) m.

Fixpoint add_search_domains (tokens : list string) (m : Manager) : Z * Manager :=
  match tokens with
  | [] => (0, m)
  | word :: rest =>
      match ParseDomainToken word with
      | inl r => (r, m)
      | inr name => add_search_domains rest (manager_add_search_domain m name)
      end
  end.

(** Modelled from the spec: [manager_parse_search_domains_and_warn] of
    resolved-manager.c, which is not among the sources (4.3 step 3): the
    argument is cut into whitespace-separated tokens, each one added or
    unmarked; the error of a token that does not parse ends the line and
    is handed back (4.2: "non-fatal per line"). *)
Definition manager_parse_search_domains_and_warn (m : Manager) (a : string) : Z * Manager :=
  add_search_domains (String.words a) m.

End Reader.

(** ** The kernel *)

(** What the system calls of one invocation answer, in the order in which
    the source makes them. *)
Record Kernel := {
  (** [stat("/etc/resolv.conf", &st)] *)
  sys_stat_etc : sysres struct_stat;
  (** [stat("/run/systemd/resolve/resolv.conf", &own)] *)
  sys_stat_own : sysres struct_stat;
  (** [fopen("/etc/resolv.conf", "re")] *)
  sys_fopen_etc : sysres unit;
  (** [fstat(fileno(f), &st)] *)
  sys_fstat : sysres struct_stat;
  (** the lines [fgets] delivers until it returns NULL *)
  sys_lines : list string;
  (** [ferror(f)] at that point: the [errno] of a read error *)
  sys_ferror : option Z;
  (** [fopen_temporary_label]: the path of the temporary file *)
  sys_fopen_temporary : sysres string;
  (** does [fchmod] succeed *)
  sys_fchmod : bool;
  (** [fflush_and_check]: the [errno] of a write error, and how much of
      the text had reached the file by then *)
  sys_fflush : option Z;
  sys_written : nat;
  (** [rename(temp_path, PRIVATE_RESOLV_CONF)]: the [errno] on failure *)
  sys_rename : option Z;
  (** do [unlink(PRIVATE_RESOLV_CONF)] and [unlink(temp_path)] succeed *)
  sys_unlink_private : bool;
  sys_unlink_temp : bool
}.

(** A regular file: permission bits and content. *)
Record File := { f_mode : Z; f_data : string }.

Section Program.
Context `{Externals}.

(** ** manager_read_resolv_conf *)

(** The body of [FOREACH_LINE] for one line. *)
Definition read_line (line : string) (m : Manager) : Manager * list LogEntry :=
  let l := strstrip line in
  if is_comment l then (m, [])
  else
    match first_word l "nameserver" with
    | Some a =>
        let '(r, m1) := manager_add_dns_server_by_string m DNS_SERVER_SYSTEM a in
        (m1, if r <? 0
             then [{| log_level := LOG_WARNING; log_error := r;
                      log_format := "Failed to parse DNS server address '%s', ignoring.";
                      log_arg := Some a |}]
             else [])
    | None =>
        let a :=
          match first_word l "domain" with
          | Some a => Some a
          | None => first_word l "search"
          end in
        match a with
        | Some a =>
            let '(r, m1) := manager_parse_search_domains_and_warn m a in
            (m1, if r <? 0
                 then [{| log_level := LOG_WARNING; log_error := r;
                          log_format := "Failed to parse search domain string '%s', ignoring.";
                          log_arg := Some a |}]
                 else [])
        | None => (m, [])
        end
    end.

Fixpoint foreach_line (lines : list string) (m : Manager) : Manager * list LogEntry :=
  match lines with
  | [] => (m, [])
  | line :: rest =>
      let '(m1, lg1) := read_line line m in
      let '(m2, lg2) := foreach_line rest m1 in
      (m2, lg1 ++ lg2)
  end.

(** The label [clear:] *)
Definition clear (r : Z) (m : Manager) (lg : list LogEntry) : Z * Manager * list LogEntry :=
  let m1 := set_dns_servers (dns_server_unlink_all (dns_servers m)) m in
  let m2 := set_search_domains (dns_search_domain_unlink_all (search_domains m1)) m1 in
  (r, m2, lg).

(** [stat(PRIVATE_RESOLV_CONF, &own) >= 0 && st.st_dev == own.st_dev &&
     st.st_ino == own.st_ino] *)
Definition is_own_file (k : Kernel) (st : struct_stat) : bool :=
  match sys_stat_own k with
  | Ok own => (st_dev st =? st_dev own) && (st_ino st =? st_ino own)
  | Err _ => false
  end.

Definition log_errno (level : LogLevel) (error : Z) (fmt : string) : LogEntry :=
  {| log_level := level; log_error := error; log_format := fmt; log_arg := None |}.

(** The return value, the manager afterwards and what was logged. *)
Definition manager_read_resolv_conf (k : Kernel) (m : Manager)
  : Z * Manager * list LogEntry :=
  if negb (read_resolv_conf m) then (0, m, [])
  else
    match sys_stat_etc k with
    | Err errno =>
        if errno =? ENOENT then (0, m, [])
        else
          clear (log_warning_errno errno) m
                [log_errno LOG_WARNING errno "Failed to stat /etc/resolv.conf: %m"]
    | Ok st =>
        (* Have we already seen the file? *)
        let t := timespec_load (st_mtim st) in
        if t =? resolv_conf_mtime m then (0, m, [])
        (* Is it symlinked to our own file? *)
        else if is_own_file k st then (0, m, [])
        else
          match sys_fopen_etc k with
          | Err errno =>
              if errno =? ENOENT then (0, m, [])
              else
                clear (log_warning_errno errno) m
                      [log_errno LOG_WARNING errno "Failed to open /etc/resolv.conf: %m"]
          | Ok _ =>
              match sys_fstat k with
              | Err errno =>
                  clear (log_error_errno errno) m
                        [log_errno LOG_ERR errno "Failed to stat open file: %m"]
              | Ok st' =>
                  (* [st] now holds [st']; [t] still is what was loaded above *)
                  let m1 := set_dns_servers (dns_server_mark_all (dns_servers m)) m in
                  let m2 := set_search_domains
                              (dns_search_domain_mark_all (search_domains m1)) m1 in
                  let '(m3, lg) := foreach_line (sys_lines k) m2 in
                  match sys_ferror k with
                  | Some errno => clear (- errno) m3 lg
                  | None =>
                      let m4 := set_resolv_conf_mtime t m3 in
                      let m5 := set_dns_servers
                                  (dns_server_unlink_marked (dns_servers m4)) m4 in
                      let m6 := set_search_domains
                                  (dns_search_domain_unlink_marked (search_domains m5)) m5 in
                      let m7 := manager_set_dns_server m6 (head (dns_servers m6)) in
                      let m8 := dns_cache_flush m7 in
                      (0, m8, lg)
                  end
              end
          end
    end.

(** ** manager_write_resolv_conf *)

(** [write_resolv_conf_contents(f, dns, domains)]: the result of
    [fflush_and_check], what the file holds afterwards, and what was
    logged.  When the flush fails only the first [sys_written] characters
    are in the file. *)
Definition write_resolv_conf_contents (k : Kernel) (dns : list DnsServer)
    (domains : list string) : Z * string * list LogEntry :=
  let '(f, lg) := resolv_conf_text dns domains in
  match sys_fflush k with
  | None => (0, f, lg)
  | Some errno => (- errno, String.substring 0 (sys_written k) f, lg)
  end.

(** [unlink(path)], with its result ignored. *)
Definition unlink (succeeds : bool) (path : string) (fs : gmap string File)
  : gmap string File :=
  if succeeds then delete path fs else fs.

(** [rename(oldpath, newpath)] when it succeeds. *)
Definition rename (oldpath newpath : string) (fs : gmap string File)
  : gmap string File :=
  match fs !! oldpath with
  | Some file => <[newpath := file]> (delete oldpath fs)
  | None => fs
  end.

(** The label [fail:] *)
Definition fail (k : Kernel) (r : Z) (temp_path : string) (fs : gmap string File)
  : Z * gmap string File :=
  let fs1 := unlink (sys_unlink_private k) PRIVATE_RESOLV_CONF fs in
  let fs2 := unlink (sys_unlink_temp k) temp_path fs1 in
  (r, fs2).

(** The return value, the manager and the files afterwards, and what was
    logged. *)
Definition manager_write_resolv_conf (k : Kernel) (m : Manager) (fs : gmap string File)
  : Z * Manager * gmap string File * list LogEntry :=
  (* Read the system /etc/resolv.conf first; its result is dropped *)
  let '(_, m1, lg0) := manager_read_resolv_conf k m in
  (* Add the full list to a set, to filter out duplicates *)
  let '(r, dns) := manager_compile_dns_servers m1 in
  if r <? 0 then (r, m1, fs, lg0)
  else
    let '(r, domains) := manager_compile_search_domains m1 in
    if r <? 0 then (r, m1, fs, lg0)
    else
      match sys_fopen_temporary k with
      | Err errno => (- errno, m1, fs, lg0)
      | Ok temp_path =>
          (* the file is created with mode 0600 = 384 *)
          let fs1 := <[temp_path := {| f_mode := 384; f_data := "" |}]> fs in
          (* fchmod(fileno(f), 0644), 0644 = 420; its result is not looked at *)
          let fs2 := if sys_fchmod k
                     then <[temp_path := {| f_mode := 420; f_data := "" |}]> fs1
                     else fs1 in
          let '(r, text, lg1) := write_resolv_conf_contents k dns domains in
          let fs3 := alter (fun file => {| f_mode := f_mode file; f_data := text |})
                           temp_path fs2 in
          if r <? 0 then
            let '(r, fs4) := fail k r temp_path fs3 in (r, m1, fs4, lg0 ++ lg1)
          else
            match sys_rename k with
            | Some errno =>
                let '(r, fs4) := fail k (- errno) temp_path fs3 in (r, m1, fs4, lg0 ++ lg1)
            | None => (0, m1, rename temp_path PRIVATE_RESOLV_CONF fs3, lg0 ++ lg1)
            end
      end.

End Program.

(** ** A concrete set of collaborators

    Used to run the program on examples: IPv4 addresses in dotted-quad
    notation, logging macros that hand back the negated error, as
    systemd's do, and the ordered sets compiled from the manager's own
    collections. *)

Definition AF_INET : Z := 2.
Definition EINVAL : Z := 22.

(** Cut [s] at every occurrence of [sep]. *)
Fixpoint split_go (sep : ascii) (cur : string) (s : string) : list string :=
  match s with
  | EmptyString => [String.rev cur]
  | String c rest =>
      if Ascii.eqb c sep then String.rev cur :: split_go sep EmptyString rest
      else split_go sep (String c cur) rest
  end.

Definition split_on (sep : ascii) (s : string) : list string := split_go sep EmptyString s.

Fixpoint decimal_go (acc : Z) (s : string) : option Z :=
  match s with
  | EmptyString => Some acc
  | String c rest =>
      match Ascii.is_nat c with
      | Some d => decimal_go (10 * acc + Z.of_nat d) rest
      | None => None
      end
  end.

Definition decimal (s : string) : option Z :=
  match s with
  | EmptyString => None
  | _ => decimal_go 0 s
  end.

Definition parse_ipv4 (s : string) : Z + in_addr :=
  match mapM decimal (split_on "."%char s) with
  | Some [a; b; c; d] =>
      if forallb (fun x => x <=? 255) [a; b; c; d]
      then inr {| family := AF_INET; octets := [a; b; c; d] |}
      else inl (- EINVAL)
  | _ => inl (- EINVAL)
  end.

Definition print_ipv4 (a : in_addr) : option string :=
  match octets a with
  | [a; b; c; d] =>
      Some (pretty a +:+ "." +:+ pretty b +:+ "." +:+ pretty c +:+ "." +:+ pretty d)
  | _ => None
  end.

(** The first record of every address, in order. *)
Fixpoint dedup_servers (seen : list in_addr) (l : list DnsServer) : list DnsServer :=
  match l with
  | [] => []
  | s :: rest =>
      if decide (server_address s ∈ seen) then dedup_servers seen rest
      else s :: dedup_servers (server_address s :: seen) rest
  end.

Definition example_externals : Externals :=
  {| timespec_load := fun ts => tv_sec ts * 1000000 + tv_nsec ts / 1000;
     log_warning_errno := fun error => - Z.abs error;
     log_error_errno := fun error => - Z.abs error;
     dns_server_string := fun s => print_ipv4 (server_address s);
     ParseServerAddress := parse_ipv4;
     ParseDomainToken := fun w => match w with EmptyString => inl (- EINVAL) | _ => inr w end;
     manager_compile_dns_servers := fun m => (0, dedup_servers [] (dns_servers m));
     manager_compile_search_domains :=
       fun m => (0, remove_dups (domain_name <$> search_domains m)) |}.

Definition ipv4 (a b c d : Z) : in_addr := {| family := AF_INET; octets := [a; b; c; d] |}.

Definition server (type : DnsServerType) (a : in_addr) : DnsServer :=
  {| server_type := type; server_address := a; server_marked := false |}.

Definition five_servers : list DnsServer :=
  server DNS_SERVER_SYSTEM <$>
    [ipv4 10 0 0 1; ipv4 10 0 0 2; ipv4 10 0 0 3; ipv4 10 0 0 4; ipv4 10 0 0 5].

(** ** Example kernels and managers *)

Definition EACCES : Z := 13.
Definition ENOSPC : Z := 28.

(** The stat of inode [ino] on device [dev], last modified at second
    [sec]. *)
Definition stat_of (dev ino sec : Z) : struct_stat :=
  {| st_dev := dev; st_ino := ino; st_mtim := {| tv_sec := sec; tv_nsec := 0 |} |}.

Definition TEMP_PATH : string := "/run/systemd/resolve/.#resolv.confb3XsQz".

(** A kernel for which the writing side succeeds throughout. *)
Definition kernel_with (stat_etc stat_own : sysres struct_stat) (fopen : sysres unit)
    (fstat : sysres struct_stat) (lines : list string) (fflush : option Z) : Kernel :=
  {| sys_stat_etc := stat_etc;
     sys_stat_own := stat_own;
     sys_fopen_etc := fopen;
     sys_fstat := fstat;
     sys_lines := lines;
     sys_ferror := None;
     sys_fopen_temporary := Ok TEMP_PATH;
     sys_fchmod := true;
     sys_fflush := fflush;
     sys_written := 20;
     sys_rename := None;
     sys_unlink_private := true;
     sys_unlink_temp := true |}.

(** /etc/resolv.conf is a file of its own, last modified at second [sec]
    and holding [lines]; nothing goes wrong. *)
Definition calm_kernel (sec : Z) (lines : list string) : Kernel :=
  kernel_with (Ok (stat_of 1 10 sec)) (Err ENOENT) (Ok ()) (Ok (stat_of 1 10 sec))
              lines None.

(** The stat of /etc/resolv.conf is refused. *)
Definition kernel_eacces : Kernel :=
  kernel_with (Err EACCES) (Err ENOENT) (Ok ()) (Ok (stat_of 1 10 100)) [] None.

(** /etc/resolv.conf is replaced between the stat and the open: the path
    showed inode 10 modified at second 100, the handle shows inode 11
    modified at second 200. *)
Definition kernel_replaced : Kernel :=
  kernel_with (Ok (stat_of 1 10 100)) (Err ENOENT) (Ok ()) (Ok (stat_of 1 11 200))
              ["nameserver 10.0.0.1"] None.

(** /etc/resolv.conf is the managed file itself, modified at second
    [sec]. *)
Definition kernel_alias (sec : Z) (lines : list string) : Kernel :=
  kernel_with (Ok (stat_of 7 42 sec)) (Ok (stat_of 7 42 sec)) (Ok ())
              (Ok (stat_of 7 42 sec)) lines None.

(** The disk is full when the text is flushed. *)
Definition kernel_enospc : Kernel :=
  kernel_with (Err ENOENT) (Err ENOENT) (Ok ()) (Ok (stat_of 1 10 100)) [] (Some ENOSPC).

Definition example_manager (mtime : Z) (servers : list DnsServer) : Manager :=
  {| read_resolv_conf := true;
     resolv_conf_mtime := mtime;
     dns_servers := servers;
     search_domains := [];
     current_dns_server := None;
     unicast_scope := Some {| cache := ["example.com. IN A 192.0.2.7"] |} |}.

Definition published_before : File :=
  {| f_mode := 420; f_data := "nameserver 192.0.2.1" +:+ nl |}.

(** ** Vocabulary of the statements *)

(** The line written for a server whose textual form is [a]. *)
Definition nameserver_line (a : string) : string := "nameserver " +:+ a +:+ nl.

Definition nameserver_lines (l : list string) : string :=
  foldr (fun a rest => nameserver_line a +:+ rest) "" l.

(** The lines of a text that start with the word [nameserver]. *)
Definition nameserver_lines_of (text : string) : list string :=
  List.filter (String.prefix "nameserver ") (split_on "010"%char text).

(** [n] copies of a character. *)
Definition repeat_char (c : ascii) (n : nat) : string :=
  String.string_of_list_ascii (replicate n c).

(** The records of other provenance, in order. *)
Definition other_servers (l : list DnsServer) : list DnsServer :=
  filter (fun s => server_type s <> DNS_SERVER_SYSTEM) l.

Definition other_domains (l : list DnsSearchDomain) : list DnsSearchDomain :=
  filter (fun d => domain_type d <> DNS_SERVER_SYSTEM) l.

(** Outside a cycle no record of other provenance carries the mark. *)
Definition others_unmarked (m : Manager) : Prop :=
  Forall (fun s => server_type s <> DNS_SERVER_SYSTEM -> server_marked s = false)
         (dns_servers m) /\
  Forall (fun d => domain_type d <> DNS_SERVER_SYSTEM -> domain_marked d = false)
         (search_domains m).

(** [m] holds the records of other provenance that [m0] holds, in the
    same order, and none of them is marked. *)
Definition others_kept (m0 m : Manager) : Prop :=
  others_unmarked m /\
  other_servers (dns_servers m) = other_servers (dns_servers m0) /\
  other_domains (search_domains m) = other_domains (search_domains m0).

Section Vocabulary.
Context `{Externals}.

(** The path through [manager_read_resolv_conf] on which the whole file
    is parsed: reading is enabled, the path stat succeeds with a time
    stamp that differs from the stored one, the file is not our own, it
    opens, the handle stats, and no read error ends the loop. *)
Definition parse_pass_completes (k : Kernel) (m : Manager) : Prop :=
  read_resolv_conf m = true /\
  exists st,
    sys_stat_etc k = Ok st /\
    timespec_load (st_mtim st) <> resolv_conf_mtime m /\
    is_own_file k st = false /\
    (exists u, sys_fopen_etc k = Ok u) /\
    (exists st', sys_fstat k = Ok st') /\
    sys_ferror k = None.

(** A stat or open failure of /etc/resolv.conf with an [errno] other
    than [ENOENT]. *)
Inductive soft_read_failure (k : Kernel) (m : Manager) (errno : Z) : Prop :=
| stat_failure :
    read_resolv_conf m = true ->
    sys_stat_etc k = Err errno ->
    errno <> ENOENT ->
    soft_read_failure k m errno
| open_failure (st : struct_stat) :
    read_resolv_conf m = true ->
    sys_stat_etc k = Ok st ->
    timespec_load (st_mtim st) <> resolv_conf_mtime m ->
    is_own_file k st = false ->
    sys_fopen_etc k = Err errno ->
    errno <> ENOENT ->
    soft_read_failure k m errno.

(** /etc/resolv.conf is the file at [PRIVATE_RESOLV_CONF]: both stats
    succeed and agree on device and inode. *)
Definition is_alias (k : Kernel) : Prop :=
  exists st own,
    sys_stat_etc k = Ok st /\ sys_stat_own k = Ok own /\
    st_dev st = st_dev own /\ st_ino st = st_ino own.

(** [line] is a [nameserver] line whose argument parses to [address]. *)
Definition nameserver_directive (line : string) (address : in_addr) : Prop :=
  is_comment (strstrip line) = false /\
  exists a, first_word (strstrip line) "nameserver" = Some a /\
            ParseServerAddress a = inr address.

(** Reconciliation run once per kernel answer, one after the other. *)
Definition reconcile_all (ks : list Kernel) (m : Manager) : Manager :=
  foldl (fun m k => (manager_read_resolv_conf k m).1.2) m ks.

End Vocabulary.

(** ** More examples and vocabulary *)

Definition EIO : Z := 5.

(** The third line of /etc/resolv.conf cannot be read. *)
Definition kernel_eio : Kernel :=
  {| sys_stat_etc := Ok (stat_of 1 10 100);
     sys_stat_own := Err ENOENT;
     sys_fopen_etc := Ok ();
     sys_fstat := Ok (stat_of 1 10 100);
     sys_lines := ["nameserver 10.0.0.9"; "nameserver 10.0.0.10"];
     sys_ferror := Some EIO;
     sys_fopen_temporary := Ok TEMP_PATH;
     sys_fchmod := true;
     sys_fflush := None;
     sys_written := 0;
     sys_rename := None;
     sys_unlink_private := true;
     sys_unlink_temp := true |}.

(** The handle of the opened file cannot be statted. *)
Definition kernel_fstat_eio : Kernel :=
  kernel_with (Ok (stat_of 1 10 100)) (Err ENOENT) (Ok ()) (Err EIO)
              ["nameserver 10.0.0.9"] None.

(** /etc/resolv.conf is removed between the stat and the open. *)
Definition kernel_vanished : Kernel :=
  kernel_with (Ok (stat_of 1 10 100)) (Err ENOENT) (Err ENOENT) (Err ENOENT)
              ["nameserver 10.0.0.9"] None.

(** No temporary file can be created below /run/systemd/resolve. *)
Definition kernel_no_temp : Kernel :=
  {| sys_stat_etc := Err ENOENT;
     sys_stat_own := Err ENOENT;
     sys_fopen_etc := Ok ();
     sys_fstat := Ok (stat_of 1 10 100);
     sys_lines := [];
     sys_ferror := None;
     sys_fopen_temporary := Err EACCES;
     sys_fchmod := true;
     sys_fflush := None;
     sys_written := 0;
     sys_rename := None;
     sys_unlink_private := true;
     sys_unlink_temp := true |}.

(** The rename fails and the managed file cannot be unlinked either. *)
Definition kernel_rename_fails : Kernel :=
  {| sys_stat_etc := Err ENOENT;
     sys_stat_own := Err ENOENT;
     sys_fopen_etc := Ok ();
     sys_fstat := Ok (stat_of 1 10 100);
     sys_lines := [];
     sys_ferror := None;
     sys_fopen_temporary := Ok TEMP_PATH;
     sys_fchmod := true;
     sys_fflush := None;
     sys_written := 0;
     sys_rename := Some EACCES;
     sys_unlink_private := false;
     sys_unlink_temp := true |}.

(** A server whose address has no textual form. *)
Definition server_without_string : DnsServer :=
  server DNS_SERVER_OTHER {| family := AF_INET; octets := [] |}.

(** The domains of a search line, each after a blank. *)
Definition search_words (domains : list string) : string :=
  foldr (fun domain rest => (" " +:+ domain) +:+ rest) "" domains.

(** The sum of the [strlen] of the domains. *)
Definition total_strlen (domains : list string) : Z :=
  foldr (fun domain n => strlen domain + n) 0 domains.

(** Both comments of the search line, [n] times over. *)
Fixpoint skipped_comments (n : nat) : string :=
  match n with
  | O => ""
  | S n' => (TOO_MANY_DOMAINS +:+ TOO_LONG_DOMAINS) +:+ skipped_comments n'
  end.

Definition IGNORING_SERVER : LogEntry :=
  log_warning "Our of memory, or invalid DNS address. Ignoring server.".

(** ** The merge in terms of the directives of the file *)

(** What one line of the file asks for: the Line Parser. *)
Inductive Directive :=
| AddServer (argument : string)
| AddSearchList (argument : string)
| Ignore.

(** A line is stripped; one that starts with [#] or [;] is a comment; a
    first word [nameserver] adds a server, a first word [domain] or
    [search] adds search domains; any other line is ignored. *)
Definition classify (line : string) : Directive :=
  let l := strstrip line in
  if is_comment l then Ignore
  else
    match first_word l "nameserver" with
    | Some a => AddServer a
    | None =>
        match first_word l "domain" with
        | Some a => AddSearchList a
        | None =>
            match first_word l "search" with
            | Some a => AddSearchList a
            | None => Ignore
            end
        end
    end.

(** The elements of [l] that are not in [seen], each once, in the order
    in which they first appear. *)
Fixpoint first_new {K : Type} `{EqDecision K} (seen l : list K) : list K :=
  match l with
  | [] => []
  | x :: rest =>
      if decide (x ∈ seen) then first_new seen rest
      else x :: first_new (x :: seen) rest
  end.

Definition domain (type : DnsServerType) (name : string) : DnsSearchDomain :=
  {| domain_type := type; domain_name := name; domain_marked := false |}.

(** The server collection in the middle of a pass over a file that has
    named [addresses] so far: [marked] is what was there when the lines
    began (after the marking); the records named are unmarked, and the
    addresses that were not there follow as new records of system
    provenance. *)
Definition servers_in_pass (marked : list DnsServer) (addresses : list in_addr)
  : list DnsServer :=
  ((fun s => if decide (server_address s ∈ addresses)
             then set_server_marked false s else s) <$> marked) ++
  (server DNS_SERVER_SYSTEM <$> first_new (server_address <$> marked) addresses).

Definition domains_in_pass (marked : list DnsSearchDomain) (names : list string)
  : list DnsSearchDomain :=
  ((fun d => if decide (domain_name d ∈ names)
             then set_domain_marked false d else d) <$> marked) ++
  (domain DNS_SERVER_SYSTEM <$> first_new (domain_name <$> marked) names).

(** What mark-and-sweep leaves of the collection [old] when the file
    names [addresses]: the records of other provenance and the records
    whose address is named, in their old order and unmarked, followed by
    a new record of system provenance for every named address that was
    not there, in the order of the file. *)
Definition merged_servers (old : list DnsServer) (addresses : list in_addr)
  : list DnsServer :=
  (set_server_marked false <$>
     filter (fun s => server_type s <> DNS_SERVER_SYSTEM \/
                      server_address s ∈ addresses) old) ++
  (server DNS_SERVER_SYSTEM <$> first_new (server_address <$> old) addresses).

Definition merged_domains (old : list DnsSearchDomain) (names : list string)
  : list DnsSearchDomain :=
  (set_domain_marked false <$>
     filter (fun d => domain_type d <> DNS_SERVER_SYSTEM \/
                      domain_name d ∈ names) old) ++
  (domain DNS_SERVER_SYSTEM <$> first_new (domain_name <$> old) names).

Section Directives.
Context `{Externals}.

(** The address a line adds, if it is a [nameserver] line whose argument
    parses. *)
Definition line_addresses (line : string) : list in_addr :=
  match classify line with
  | AddServer a =>
      match ParseServerAddress a with
      | inr address => [address]
      | inl _ => []
      end
  | _ => []
  end.

(** The tokens that parse, up to the first one that does not. *)
Fixpoint parsed_tokens (tokens : list string) : list string :=
  match tokens with
  | [] => []
  | word :: rest =>
      match ParseDomainToken word with
      | inr name => name :: parsed_tokens rest
      | inl _ => []
      end
  end.

(** The search domains a line adds. *)
Definition line_domains (line : string) : list string :=
  match classify line with
  | AddSearchList a => parsed_tokens (String.words a)
  | _ => []
  end.

(** The addresses and the search domains a file names, in its order. *)
Definition file_addresses (lines : list string) : list in_addr :=
  concat (line_addresses <$> lines).

Definition file_domains (lines : list string) : list string :=
  concat (line_domains <$> lines).

End Directives.

(** A manager with servers and search domains. *)
Definition example_manager_with (servers : list DnsServer)
    (domains : list DnsSearchDomain) : Manager :=
  {| read_resolv_conf := true;
     resolv_conf_mtime := 0;
     dns_servers := servers;
     search_domains := domains;
     current_dns_server := None;
     unicast_scope := None |}.

(** A file with a comment, a server, both kinds of search line and a
    line that means nothing. *)
Definition example_file : list string :=
  ["# generated by a network manager";
   "nameserver 10.0.0.3";
   "nameserver 10.0.0.3";
   "domain lan";
   "  search c.example b.example  ";
   "options timeout:1"].

(** * Properties *)

Lemma string_app_assoc (a b c : string) : (a +:+ b) +:+ c = a +:+ (b +:+ c).
Proof.
  induction a as [|x a IH]; [reflexivity|].
  change (String x ((a +:+ b) +:+ c) = String x (a +:+ (b +:+ c))).
  by rewrite IH.
Qed.

Lemma string_app_nil_r (a : string) : a +:+ "" = a.
Proof.
  induction a as [|x a IH]; [reflexivity|].
  change (String x (a +:+ "") = String x a).
  by rewrite IH.
Qed.

Lemma u32_small (z : Z) : 0 <= z < 2 ^ 32 -> u32 z = z.
Proof. intros Hz. unfold u32. by apply Z.mod_small. Qed.

(** ** The name server lines *)

Section WriterFacts.
Context `{Externals}.

(** Past the limit the loop only appends lines. *)
Lemma foreach_server_past (dns : list DnsServer) (f : string) (count : Z) :
  MAXNS < count ->
  count + Z.of_nat (length dns) < 2 ^ 32 ->
  (foreach_server dns f count).1 = f +:+ nameserver_lines (omap dns_server_string dns).
Proof.
  revert f count. induction dns as [|s dns IH]; intros f count Hc Hlen.
  - cbn. by rewrite string_app_nil_r.
  - cbn [foreach_server omap list_omap]. unfold write_resolv_conf_server.
    rewrite length_cons in Hlen. unfold MAXNS in Hc.
    destruct (dns_server_string s) as [a|] eqn:Hs.
    + assert ((count =? MAXNS) = false) as -> by (apply Z.eqb_neq; unfold MAXNS; lia).
      rewrite u32_small by lia.
      specialize (IH (f +:+ "nameserver " +:+ a +:+ nl) (count + 1)).
      destruct (foreach_server dns _ (count + 1)) as [f2 lg2]. cbn [fst] in *.
      rewrite IH by (unfold MAXNS; lia).
      cbn [nameserver_lines foldr]. fold (nameserver_lines (omap dns_server_string dns)).
      unfold nameserver_line. by rewrite !string_app_assoc.
    + specialize (IH f count).
      destruct (foreach_server dns f count) as [f2 lg2]. cbn [fst] in *.
      apply IH; [unfold MAXNS|]; lia.
Qed.

(** Up to the limit: [MAXNS - count] more lines, then the comment, then
    all the other lines. *)
Lemma foreach_server_upto (dns : list DnsServer) (f : string) (count : Z) :
  0 <= count <= MAXNS ->
  count + Z.of_nat (length dns) < 2 ^ 32 ->
  let l := omap dns_server_string dns in
  let n := Z.to_nat (MAXNS - count) in
  (foreach_server dns f count).1 =
    f +:+ nameserver_lines (take n l) +:+
      (if decide (n < length l)%nat
       then TOO_MANY_SERVERS +:+ nameserver_lines (drop n l) else "").
Proof.
  revert f count. induction dns as [|s dns IH]; intros f count Hc Hlen l n.
  - subst l n. cbn. rewrite take_nil. cbn.
    case_decide; [cbn in *; lia|]. by rewrite string_app_nil_r.
  - subst l. cbn [foreach_server omap list_omap]. unfold write_resolv_conf_server.
    rewrite length_cons in Hlen. unfold MAXNS in Hc.
    destruct (dns_server_string s) as [a|] eqn:Hs.
    + destruct (Z.eqb_spec count MAXNS) as [->|Hne].
      * (* the limit is reached: comment, line, and no more comments *)
        pose proof (foreach_server_past dns
                      ((f +:+ TOO_MANY_SERVERS) +:+ "nameserver " +:+ a +:+ nl)
                      (u32 (MAXNS + 1))) as Hpast.
        rewrite u32_small in Hpast by (unfold MAXNS; lia).
        rewrite u32_small by (unfold MAXNS; lia).
        destruct (foreach_server dns _ (MAXNS + 1)) as [f2 lg2]. cbn [fst] in *.
        rewrite Hpast by (unfold MAXNS in *; lia).
        subst n. replace (Z.to_nat (MAXNS - MAXNS)) with 0%nat by lia.
        cbn [take drop nameserver_lines foldr option_bind mbind]. cbn [length].
        rewrite decide_True by lia.
        fold (nameserver_lines (omap dns_server_string dns)).
        unfold nameserver_line. by rewrite !string_app_assoc.
      * rewrite u32_small by (unfold MAXNS in *; lia).
        specialize (IH (f +:+ "nameserver " +:+ a +:+ nl) (count + 1)).
        destruct (foreach_server dns _ (count + 1)) as [f2 lg2]. cbn [fst] in *.
        rewrite IH by (unfold MAXNS in *; lia).
        subst n. unfold MAXNS in Hne.
        replace (Z.to_nat (MAXNS - count)) with (S (Z.to_nat (MAXNS - (count + 1))))
          by (unfold MAXNS; lia).
        cbn [take drop nameserver_lines foldr length].
        fold (nameserver_lines (take (Z.to_nat (MAXNS - (count + 1)))
                                     (omap dns_server_string dns))).
        unfold nameserver_line. rewrite !string_app_assoc.
        do 4 f_equal.
        repeat case_decide; try reflexivity; lia.
    + specialize (IH f count).
      destruct (foreach_server dns f count) as [f2 lg2]. cbn [fst] in *.
      apply IH; [unfold MAXNS|]; lia.
Qed.

(** C1 (as the code has it): every server that has a textual form gets
    its [nameserver] line, in order, none is left out; when there are
    more than [MAXNS] of them (and fewer than 2^32 servers in all) the
    comment about too many servers is written exactly once, between line
    [MAXNS] and line [MAXNS + 1].  With at most [MAXNS] no comment is
    written. *)
Theorem too_many_servers_warns_once_and_keeps_all
    (dns : list DnsServer) (domains : list string) :
  dns <> [] ->
  Z.of_nat (length dns) < 2 ^ 32 ->
  let l := omap dns_server_string dns in
  let n := Z.to_nat MAXNS in
  (resolv_conf_text dns domains).1 =
    write_search domains
      (HEADER +:+ nameserver_lines (take n l) +:+
         (if decide (n < length l)%nat
          then TOO_MANY_SERVERS +:+ nameserver_lines (drop n l) else "")).
Proof.
  intros Hne Hlen l n. unfold resolv_conf_text, write_servers.
  destruct dns as [|s dns]; [done|].
  pose proof (foreach_server_upto (s :: dns) HEADER 0) as Hloop.
  destruct (foreach_server (s :: dns) HEADER 0) as [f lg]. cbn [fst] in *.
  rewrite Hloop by (unfold MAXNS; lia).
  by rewrite Z.sub_0_r.
Qed.

End WriterFacts.

Lemma too_many_servers_warns_once_and_keeps_all_witness :
  five_servers <> [] /\
  Z.of_nat (length five_servers) < 2 ^ 32 /\
  (@resolv_conf_text example_externals five_servers ["example.com"]).1 =
    HEADER +:+
    "nameserver 10.0.0.1" +:+ nl +:+
    "nameserver 10.0.0.2" +:+ nl +:+
    "nameserver 10.0.0.3" +:+ nl +:+
    TOO_MANY_SERVERS +:+
    "nameserver 10.0.0.4" +:+ nl +:+
    "nameserver 10.0.0.5" +:+ nl +:+
    "search example.com" +:+ nl.
Proof.
  split; [done|]. split; [done|].
  exact (@too_many_servers_warns_once_and_keeps_all example_externals
           five_servers ["example.com"] ltac:(done) ltac:(done)).
Defined.

(** C1 as stated fails: with five servers and [MAXNS = 3] the text holds
    five [nameserver] lines, not the first three only. *)
Lemma servers_past_MAXNS_are_written :
  MAXNS < Z.of_nat (length five_servers) /\
  nameserver_lines_of (@resolv_conf_text example_externals five_servers []).1 =
    ["nameserver 10.0.0.1"; "nameserver 10.0.0.2"; "nameserver 10.0.0.3";
     "nameserver 10.0.0.4"; "nameserver 10.0.0.5"] /\
  nameserver_lines_of (@resolv_conf_text example_externals five_servers []).1 <>
    ["nameserver 10.0.0.1"; "nameserver 10.0.0.2"; "nameserver 10.0.0.3"].
Proof. split; [done|]. split; [by vm_compute|]. by vm_compute. Qed.

(** ** The search line *)

(** C5 (the code at two inputs): with eight one-letter domains the two
    skipped ones each write both comments, so either comment is there
    twice, the one about the total length although the length is 6; and
    after a domain that is skipped for its length a later, shorter
    domain is written again. *)
Theorem search_comments_repeat_and_later_domain_written :
  write_search ["a"; "b"; "c"; "d"; "e"; "f"; "g"; "h"] "" =
    "search a b c d e f" +:+
    TOO_MANY_DOMAINS +:+ TOO_LONG_DOMAINS +:+
    TOO_MANY_DOMAINS +:+ TOO_LONG_DOMAINS +:+ nl
  /\
  write_search [repeat_char "a" 250; repeat_char "b" 10; "ccc"] "" =
    "search " +:+ repeat_char "a" 250 +:+ TOO_LONG_DOMAINS +:+ " ccc" +:+ nl.
Proof. split; by vm_compute. Qed.

(** ** Reading /etc/resolv.conf *)

Section ReaderFacts.
Context `{Externals}.

(** *** What the parsing loop leaves alone *)

Lemma add_dns_server_mtime (m : Manager) (type : DnsServerType) (a : string) :
  resolv_conf_mtime (manager_add_dns_server_by_string m type a).2 = resolv_conf_mtime m.
Proof.
  unfold manager_add_dns_server_by_string.
  destruct (ParseServerAddress a); [done|]. by case_decide.
Qed.

Lemma add_search_domains_mtime (tokens : list string) (m : Manager) :
  resolv_conf_mtime (add_search_domains tokens m).2 = resolv_conf_mtime m.
Proof.
  revert m. induction tokens as [|w tokens IH]; intros m; [done|].
  cbn [add_search_domains]. destruct (ParseDomainToken w); [done|].
  rewrite IH. unfold manager_add_search_domain. by case_decide.
Qed.

Lemma read_line_mtime (line : string) (m : Manager) :
  resolv_conf_mtime (read_line line m).1 = resolv_conf_mtime m.
Proof.
  unfold read_line. destruct (is_comment _); [done|].
  destruct (first_word _ "nameserver") as [a|].
  - pose proof (add_dns_server_mtime m DNS_SERVER_SYSTEM a) as Hm.
    by destruct (manager_add_dns_server_by_string m DNS_SERVER_SYSTEM a).
  - destruct (match first_word _ "domain" with Some _ => _ | None => _ end) as [a|]; [|done].
    pose proof (add_search_domains_mtime (String.words a) m) as Hm.
    unfold manager_parse_search_domains_and_warn.
    by destruct (add_search_domains (String.words a) m).
Qed.

Lemma foreach_line_mtime (lines : list string) (m : Manager) :
  resolv_conf_mtime (foreach_line lines m).1 = resolv_conf_mtime m.
Proof.
  revert m. induction lines as [|line lines IH]; intros m; [done|].
  cbn [foreach_line].
  pose proof (read_line_mtime line m) as Hl.
  destruct (read_line line m) as [m1 lg1].
  specialize (IH m1). destruct (foreach_line lines m1) as [m2 lg2].
  cbn [fst] in *. congruence.
Qed.

(** *** The three ways out of [manager_read_resolv_conf] *)

(** On the parsing path: result 0, the path time stamp stored, the marked
    records swept. *)
Lemma read_parse_pass (k : Kernel) (m : Manager) (st : struct_stat) :
  parse_pass_completes k m ->
  sys_stat_etc k = Ok st ->
  let m2 := set_search_domains (dns_search_domain_mark_all (search_domains m))
              (set_dns_servers (dns_server_mark_all (dns_servers m)) m) in
  let parsed := foreach_line (sys_lines k) m2 in
  let res := manager_read_resolv_conf k m in
  res.1.1 = 0 /\
  res.2 = parsed.2 /\
  resolv_conf_mtime res.1.2 = timespec_load (st_mtim st) /\
  dns_servers res.1.2 = dns_server_unlink_marked (dns_servers parsed.1) /\
  search_domains res.1.2 = dns_search_domain_unlink_marked (search_domains parsed.1).
Proof.
  intros (Hflag & st0 & Hst & Ht & Hown & [u Hopen] & [st' Hfstat] & Herr) Hst' m2 parsed res.
  assert (st0 = st) as -> by congruence.
  subst res parsed m2. unfold manager_read_resolv_conf.
  rewrite Hflag, Hst. cbn [negb].
  rewrite (proj2 (Z.eqb_neq _ _) Ht), Hown, Hopen, Hfstat.
  cbn [search_domains set_dns_servers].
  destruct (foreach_line _ _) as [m3 lg]. by rewrite Herr.
Qed.

(** Every path is the parsing path, or returns at once, leaving the
    manager as it is and logging nothing, or goes through [clear]. *)
Lemma read_paths (k : Kernel) (m : Manager) :
  parse_pass_completes k m \/
  manager_read_resolv_conf k m = (0, m, []) \/
  exists r m0 lg,
    manager_read_resolv_conf k m = clear r m0 lg /\
    resolv_conf_mtime m0 = resolv_conf_mtime m.
Proof.
  unfold manager_read_resolv_conf.
  destruct (read_resolv_conf m) eqn:Hflag; cbn [negb]; [|by right; left].
  destruct (sys_stat_etc k) as [st|errno] eqn:Hst.
  2: { destruct (errno =? ENOENT); [by right; left|]. right; right. by eexists _, _, _. }
  destruct (Z.eqb_spec (timespec_load (st_mtim st)) (resolv_conf_mtime m)) as [|Ht];
    [by right; left|].
  destruct (is_own_file k st) eqn:Hown; [by right; left|].
  destruct (sys_fopen_etc k) as [u|errno] eqn:Hopen.
  2: { destruct (errno =? ENOENT); [by right; left|]. right; right. by eexists _, _, _. }
  destruct (sys_fstat k) as [st'|errno] eqn:Hfstat.
  2: { right; right. by eexists _, _, _. }
  pose proof (foreach_line_mtime (sys_lines k)
    (set_search_domains (dns_search_domain_mark_all (search_domains m))
       (set_dns_servers (dns_server_mark_all (dns_servers m)) m))) as Hm.
  cbn [search_domains set_dns_servers] in *.
  destruct (foreach_line _ _) as [m3 lg]. cbn [fst] in Hm.
  destruct (sys_ferror k) as [errno|] eqn:Herr.
  - right; right. by eexists _, _, _.
  - left. split; [done|]. exists st. eauto 10.
Qed.

Lemma is_alias_noop (k : Kernel) (m : Manager) :
  is_alias k -> manager_read_resolv_conf k m = (0, m, []).
Proof.
  intros (st & own & Hst & Hown & Hdev & Hino). unfold manager_read_resolv_conf.
  destruct (read_resolv_conf m); cbn [negb]; [|done].
  rewrite Hst. destruct (_ =? resolv_conf_mtime m); [done|].
  unfold is_own_file. rewrite Hown, Hdev, Hino, !Z.eqb_refl. done.
Qed.

Lemma other_servers_nil (l : list DnsServer) :
  Forall (fun s => server_type s = DNS_SERVER_SYSTEM) l -> other_servers l = [].
Proof.
  unfold other_servers. induction 1 as [|s l Hs _ IH]; [done|].
  rewrite filter_cons. by rewrite decide_False by auto.
Qed.

Lemma other_domains_nil (l : list DnsSearchDomain) :
  Forall (fun d => domain_type d = DNS_SERVER_SYSTEM) l -> other_domains l = [].
Proof.
  unfold other_domains. induction 1 as [|d l Hd _ IH]; [done|].
  rewrite filter_cons. by rewrite decide_False by auto.
Qed.

(** *** Change detection *)

(** C6: when the path stat succeeds and shows the time stamp that is
    stored, [manager_read_resolv_conf] returns 0 at once: the manager
    (both collections, the stored time stamp and everything else) is
    what it was and nothing is logged. *)
Theorem unchanged_mtime_is_noop (k : Kernel) (m : Manager) (st : struct_stat) :
  sys_stat_etc k = Ok st ->
  timespec_load (st_mtim st) = resolv_conf_mtime m ->
  manager_read_resolv_conf k m = (0, m, []).
Proof.
  intros Hst Ht. unfold manager_read_resolv_conf.
  destruct (read_resolv_conf m); cbn [negb]; [|done].
  by rewrite Hst, Ht, Z.eqb_refl.
Qed.

(** C7: while /etc/resolv.conf is the very file at
    [PRIVATE_RESOLV_CONF] (same device and inode), every invocation
    returns 0 with the manager unchanged and nothing logged, whatever
    the other system calls would have answered (the file is not opened:
    its lines play no part), and so does any sequence of invocations. *)
Theorem alias_is_noop_forever (ks : list Kernel) (m : Manager) :
  Forall is_alias ks ->
  Forall (fun k => manager_read_resolv_conf k m = (0, m, [])) ks /\
  reconcile_all ks m = m.
Proof.
  intros Hks. split.
  - eapply Forall_impl; [exact Hks|]. intros k Hk. by apply is_alias_noop.
  - unfold reconcile_all. induction Hks as [|k ks Hk _ IH]; [done|].
    cbn [foldl]. by rewrite is_alias_noop.
Qed.

(** *** Soft read failures *)

(** A soft read failure logs one warning and leaves through [clear] with
    the value of [log_warning_errno]. *)
Lemma soft_read_failure_goes_to_clear (k : Kernel) (m : Manager) (errno : Z) :
  soft_read_failure k m errno ->
  exists fmt,
    manager_read_resolv_conf k m =
      clear (log_warning_errno errno) m [log_errno LOG_WARNING errno fmt].
Proof.
  intros Hfail. unfold manager_read_resolv_conf.
  destruct Hfail as [Hflag Hst Hne | st Hflag Hst Ht Hown Hopen Hne].
  - rewrite Hflag, Hst. cbn [negb].
    rewrite (proj2 (Z.eqb_neq _ _) Hne). by eexists.
  - rewrite Hflag, Hst. cbn [negb].
    rewrite (proj2 (Z.eqb_neq _ _) Ht), Hown, Hopen.
    rewrite (proj2 (Z.eqb_neq _ _) Hne). by eexists.
Qed.

(** C4 (as the code has it): when the stat or the open of
    /etc/resolv.conf fails with an [errno] other than [ENOENT], exactly
    one warning is logged for that [errno], every record of system
    provenance is removed from both collections (which leaves them empty
    when they held no others), the stored time stamp is unchanged, and
    the function returns the value of [log_warning_errno], not 0. *)
Theorem soft_read_failure_clears_and_returns_error
    (k : Kernel) (m : Manager) (errno : Z) :
  soft_read_failure k m errno ->
  let res := manager_read_resolv_conf k m in
  res.1.1 = log_warning_errno errno /\
  (exists fmt, res.2 = [log_errno LOG_WARNING errno fmt]) /\
  resolv_conf_mtime res.1.2 = resolv_conf_mtime m /\
  dns_servers res.1.2 = other_servers (dns_servers m) /\
  search_domains res.1.2 = other_domains (search_domains m) /\
  (Forall (fun s => server_type s = DNS_SERVER_SYSTEM) (dns_servers m) ->
   dns_servers res.1.2 = []) /\
  (Forall (fun d => domain_type d = DNS_SERVER_SYSTEM) (search_domains m) ->
   search_domains res.1.2 = []).
Proof.
  intros Hfail res. subst res.
  destruct (soft_read_failure_goes_to_clear k m errno Hfail) as [fmt ->].
  cbn. repeat split; eauto using other_servers_nil, other_domains_nil.
Qed.

(** *** The stored time stamp *)

(** C9 (as the code has it): the stored time stamp changes exactly on
    the invocations that parse the whole file; an early return and a
    failed read leave it as it was.  The new value differs from the old
    one; it need not be larger. *)
Theorem mtime_changes_exactly_on_parse_pass (k : Kernel) (m : Manager) :
  resolv_conf_mtime (manager_read_resolv_conf k m).1.2 <> resolv_conf_mtime m <->
  parse_pass_completes k m.
Proof.
  split.
  - intros Hchg. destruct (read_paths k m) as [Hc | [Hnoop | (r & m0 & lg & Hclear & Hm0)]].
    + done.
    + by rewrite Hnoop in Hchg.
    + rewrite Hclear in Hchg. cbn in Hchg. congruence.
  - intros Hc. pose proof Hc as (_ & st & Hst & Ht & _).
    destruct (read_parse_pass k m st Hc Hst) as (_ & _ & Hm & _). congruence.
Qed.

(** *** Mark and sweep *)

Lemma mark_all_servers_kept (l : list DnsServer) :
  Forall (fun s => server_type s <> DNS_SERVER_SYSTEM -> server_marked s = false) l ->
  Forall (fun s => server_type s <> DNS_SERVER_SYSTEM -> server_marked s = false)
         (dns_server_mark_all l) /\
  other_servers (dns_server_mark_all l) = other_servers l.
Proof.
  unfold other_servers, dns_server_mark_all.
  induction 1 as [|s l Hs _ [IH1 IH2]]; [done|].
  rewrite fmap_cons, !filter_cons. destruct (decide (server_type s = DNS_SERVER_SYSTEM)).
  - cbn [server_type set_server_marked]. rewrite !decide_False by auto.
    split; [constructor; [done|exact IH1] | exact IH2].
  - rewrite !decide_True by auto. split; [by constructor | by rewrite IH2].
Qed.

Lemma mark_all_domains_kept (l : list DnsSearchDomain) :
  Forall (fun d => domain_type d <> DNS_SERVER_SYSTEM -> domain_marked d = false) l ->
  Forall (fun d => domain_type d <> DNS_SERVER_SYSTEM -> domain_marked d = false)
         (dns_search_domain_mark_all l) /\
  other_domains (dns_search_domain_mark_all l) = other_domains l.
Proof.
  unfold other_domains, dns_search_domain_mark_all.
  induction 1 as [|d l Hd _ [IH1 IH2]]; [done|].
  rewrite fmap_cons, !filter_cons. destruct (decide (domain_type d = DNS_SERVER_SYSTEM)).
  - cbn [domain_type set_domain_marked]. rewrite !decide_False by auto.
    split; [constructor; [done|exact IH1] | exact IH2].
  - rewrite !decide_True by auto. split; [by constructor | by rewrite IH2].
Qed.

(** Clearing the mark of an unmarked record is no change. *)
Lemma unmark_servers_kept (address : in_addr) (l : list DnsServer) :
  Forall (fun s => server_type s <> DNS_SERVER_SYSTEM -> server_marked s = false) l ->
  let l' := (fun s => if decide (server_address s = address)
                      then set_server_marked false s else s) <$> l in
  Forall (fun s => server_type s <> DNS_SERVER_SYSTEM -> server_marked s = false) l' /\
  other_servers l' = other_servers l.
Proof.
  unfold other_servers. induction 1 as [|s l Hs _ [IH1 IH2]]; [done|].
  cbn zeta in *. rewrite fmap_cons, !filter_cons.
  destruct (decide (server_address s = address)).
  - cbn [server_type set_server_marked]. split; [by constructor|].
    destruct (decide (server_type s <> DNS_SERVER_SYSTEM)) as [Ho|]; [|exact IH2].
    rewrite IH2. f_equal. destruct s as [ty ad mk]. cbn in *. by rewrite (Hs Ho).
  - split; [by constructor | by rewrite IH2].
Qed.

Lemma unmark_domains_kept (name : string) (l : list DnsSearchDomain) :
  Forall (fun d => domain_type d <> DNS_SERVER_SYSTEM -> domain_marked d = false) l ->
  let l' := (fun d => if decide (domain_name d = name)
                      then set_domain_marked false d else d) <$> l in
  Forall (fun d => domain_type d <> DNS_SERVER_SYSTEM -> domain_marked d = false) l' /\
  other_domains l' = other_domains l.
Proof.
  unfold other_domains. induction 1 as [|d l Hd _ [IH1 IH2]]; [done|].
  cbn zeta in *. rewrite fmap_cons, !filter_cons.
  destruct (decide (domain_name d = name)).
  - cbn [domain_type set_domain_marked]. split; [by constructor|].
    destruct (decide (domain_type d <> DNS_SERVER_SYSTEM)) as [Ho|]; [|exact IH2].
    rewrite IH2. f_equal. destruct d as [ty nm mk]. cbn in *. by rewrite (Hd Ho).
  - split; [by constructor | by rewrite IH2].
Qed.

Lemma unlink_marked_servers_kept (l : list DnsServer) :
  Forall (fun s => server_type s <> DNS_SERVER_SYSTEM -> server_marked s = false) l ->
  Forall (fun s => server_type s <> DNS_SERVER_SYSTEM -> server_marked s = false)
         (dns_server_unlink_marked l) /\
  other_servers (dns_server_unlink_marked l) = other_servers l.
Proof.
  unfold other_servers, dns_server_unlink_marked.
  induction 1 as [|s l Hs _ [IH1 IH2]]; [done|].
  rewrite !filter_cons. destruct (decide (server_marked s = false)) as [|Hm].
  - rewrite filter_cons. split; [by constructor | by rewrite IH2].
  - split; [done|]. rewrite decide_False; [done|]. intros Ho. by apply Hm, Hs.
Qed.

Lemma unlink_marked_domains_kept (l : list DnsSearchDomain) :
  Forall (fun d => domain_type d <> DNS_SERVER_SYSTEM -> domain_marked d = false) l ->
  Forall (fun d => domain_type d <> DNS_SERVER_SYSTEM -> domain_marked d = false)
         (dns_search_domain_unlink_marked l) /\
  other_domains (dns_search_domain_unlink_marked l) = other_domains l.
Proof.
  unfold other_domains, dns_search_domain_unlink_marked.
  induction 1 as [|d l Hd _ [IH1 IH2]]; [done|].
  rewrite !filter_cons. destruct (decide (domain_marked d = false)) as [|Hm].
  - rewrite filter_cons. split; [by constructor | by rewrite IH2].
  - split; [done|]. rewrite decide_False; [done|]. intros Ho. by apply Hm, Hd.
Qed.

Lemma add_dns_server_kept (m0 m : Manager) (a : string) :
  others_kept m0 m ->
  others_kept m0 (manager_add_dns_server_by_string m DNS_SERVER_SYSTEM a).2.
Proof.
  intros ([Hs Hd] & Hos & Hod). unfold manager_add_dns_server_by_string.
  destruct (ParseServerAddress a) as [r|address]; [done|].
  case_decide; cbn [snd]; unfold others_kept, others_unmarked;
    cbn [dns_servers search_domains set_dns_servers].
  - destruct (unmark_servers_kept address _ Hs) as [? Heq]. cbn zeta in Heq.
    by rewrite Heq.
  - unfold other_servers in *. rewrite filter_app, filter_cons, filter_nil.
    rewrite decide_False by (cbn; auto). rewrite app_nil_r.
    repeat split; try done. apply Forall_app. split; [done|].
    constructor; [|done]. done.
Qed.

Lemma add_search_domain_kept (m0 m : Manager) (name : string) :
  others_kept m0 m -> others_kept m0 (manager_add_search_domain m name).
Proof.
  intros ([Hs Hd] & Hos & Hod). unfold manager_add_search_domain.
  case_decide; unfold others_kept, others_unmarked;
    cbn [dns_servers search_domains set_search_domains].
  - destruct (unmark_domains_kept name _ Hd) as [? Heq]. cbn zeta in Heq.
    by rewrite Heq.
  - unfold other_domains in *. rewrite filter_app, filter_cons, filter_nil.
    rewrite decide_False by (cbn; auto). rewrite app_nil_r.
    repeat split; try done. apply Forall_app. split; [done|].
    constructor; [|done]. done.
Qed.

Lemma add_search_domains_kept (m0 : Manager) (tokens : list string) (m : Manager) :
  others_kept m0 m -> others_kept m0 (add_search_domains tokens m).2.
Proof.
  revert m. induction tokens as [|w tokens IH]; intros m Hk; [done|].
  cbn [add_search_domains]. destruct (ParseDomainToken w) as [r|name]; [done|].
  by apply IH, add_search_domain_kept.
Qed.

Lemma read_line_kept (m0 : Manager) (line : string) (m : Manager) :
  others_kept m0 m -> others_kept m0 (read_line line m).1.
Proof.
  intros Hk. unfold read_line. destruct (is_comment _); [done|].
  destruct (first_word _ "nameserver") as [a|].
  - pose proof (add_dns_server_kept m0 m a Hk) as Hm.
    by destruct (manager_add_dns_server_by_string m DNS_SERVER_SYSTEM a).
  - destruct (match first_word _ "domain" with Some _ => _ | None => _ end) as [a|]; [|done].
    pose proof (add_search_domains_kept m0 (String.words a) m Hk) as Hm.
    unfold manager_parse_search_domains_and_warn.
    by destruct (add_search_domains (String.words a) m).
Qed.

Lemma foreach_line_kept (m0 : Manager) (lines : list string) (m : Manager) :
  others_kept m0 m -> others_kept m0 (foreach_line lines m).1.
Proof.
  revert m. induction lines as [|line lines IH]; intros m Hk; [done|].
  cbn [foreach_line].
  pose proof (read_line_kept m0 line m Hk) as Hl.
  destruct (read_line line m) as [m1 lg1].
  specialize (IH m1 Hl). by destruct (foreach_line lines m1) as [m2 lg2].
Qed.

Lemma clear_kept (m0 : Manager) (r : Z) (m : Manager) (lg : list LogEntry) :
  others_kept m0 m -> others_kept m0 (clear r m lg).1.2.
Proof.
  intros ([Hs Hd] & Hos & Hod). unfold others_kept, others_unmarked, clear.
  cbn [fst snd dns_servers search_domains set_dns_servers set_search_domains].
  unfold dns_server_unlink_all, dns_search_domain_unlink_all.
  unfold other_servers, other_domains in *.
  rewrite !list_filter_filter.
  repeat split.
  - rewrite Forall_forall in Hs |- *. intros s [_ Hin]%list_elem_of_filter. auto.
  - rewrite Forall_forall in Hd |- *. intros d [_ Hin]%list_elem_of_filter. auto.
  - rewrite <- Hos. apply list_filter_iff. tauto.
  - rewrite <- Hod. apply list_filter_iff. tauto.
Qed.

Lemma read_kept (k : Kernel) (m : Manager) :
  others_unmarked m -> others_kept m (manager_read_resolv_conf k m).1.2.
Proof.
  intros Hu. assert (others_kept m m) as Hk by done.
  unfold manager_read_resolv_conf.
  destruct (read_resolv_conf m); cbn [negb]; [|done].
  destruct (sys_stat_etc k) as [st|errno].
  2: { destruct (errno =? ENOENT); [done|]. by apply clear_kept. }
  destruct (_ =? resolv_conf_mtime m); [done|].
  destruct (is_own_file k st); [done|].
  destruct (sys_fopen_etc k) as [u|errno].
  2: { destruct (errno =? ENOENT); [done|]. by apply clear_kept. }
  destruct (sys_fstat k) as [st'|errno]; [|by apply clear_kept].
  assert (others_kept m
            (set_search_domains (dns_search_domain_mark_all (search_domains m))
               (set_dns_servers (dns_server_mark_all (dns_servers m)) m))) as Hmark.
  { destruct Hu as [Hs Hd].
    destruct (mark_all_servers_kept _ Hs) as [? ?].
    destruct (mark_all_domains_kept _ Hd) as [? ?].
    by repeat split. }
  apply (foreach_line_kept m (sys_lines k)) in Hmark.
  cbn [search_domains set_dns_servers] in *.
  destruct (foreach_line _ _) as [m3 lg]. cbn [fst] in Hmark.
  destruct (sys_ferror k) as [errno|]; [by apply clear_kept|].
  destruct Hmark as ([Hs Hd] & Hos & Hod).
  destruct (unlink_marked_servers_kept _ Hs) as [? Hos'].
  destruct (unlink_marked_domains_kept _ Hd) as [? Hod'].
  unfold others_kept, others_unmarked.
  cbn [fst snd dns_servers search_domains dns_cache_flush manager_set_dns_server
       set_search_domains set_dns_servers set_resolv_conf_mtime].
  rewrite Hos', Hod'. by repeat split.
Qed.

(** *** The merge as a function of what the file names *)

Lemma first_new_snoc {K : Type} `{EqDecision K} (seen l : list K) (a : K) :
  first_new seen (l ++ [a]) =
    first_new seen l ++ (if decide (a ∈ seen \/ a ∈ l) then [] else [a]).
Proof.
  revert seen. induction l as [|x l IH]; intros seen; cbn [first_new app].
  - destruct (decide (a ∈ seen)) as [Hin|Hnin].
    + by rewrite decide_True by (by left).
    + rewrite decide_False; [done|]. intros [?|?%elem_of_nil]; done.
  - destruct (decide (x ∈ seen)) as [Hx|Hx].
    + rewrite IH. f_equal. apply decide_ext. rewrite elem_of_cons.
      split; [tauto|]. intros [?|[->|?]]; tauto.
    + rewrite IH. cbn [app]. do 2 f_equal. apply decide_ext.
      rewrite !elem_of_cons. tauto.
Qed.

Lemma elem_of_first_new {K : Type} `{EqDecision K} (seen l : list K) (a : K) :
  a ∈ first_new seen l <-> a ∈ l /\ a ∉ seen.
Proof.
  revert seen. induction l as [|x l IH]; intros seen; cbn [first_new].
  - rewrite elem_of_nil. tauto.
  - destruct (decide (x ∈ seen)) as [Hx|Hx].
    + rewrite IH, elem_of_cons. split; [tauto|].
      intros [[->|?] ?]; tauto.
    + rewrite !elem_of_cons, IH, elem_of_cons.
      split.
      * intros [->|[? ?]]; tauto.
      * intros [[->|?] ?]; [tauto|].
        destruct (decide (a = x)) as [->|]; tauto.
Qed.

Lemma servers_in_pass_nil (marked : list DnsServer) :
  servers_in_pass marked [] = marked.
Proof.
  unfold servers_in_pass. cbn [first_new]. rewrite fmap_nil, app_nil_r.
  induction marked as [|s l IH]; [done|].
  by rewrite fmap_cons, IH.
Qed.

Lemma servers_in_pass_addresses (marked : list DnsServer) (addresses : list in_addr) :
  server_address <$> servers_in_pass marked addresses =
    (server_address <$> marked) ++ first_new (server_address <$> marked) addresses.
Proof.
  unfold servers_in_pass. rewrite fmap_app. f_equal.
  - induction marked as [|s l IH]; [done|].
    rewrite !fmap_cons, IH. f_equal. by case_decide.
  - generalize (first_new (server_address <$> marked) addresses).
    intros l. induction l as [|x l IH]; [done|]. by rewrite !fmap_cons, IH.
Qed.

Lemma unmark_named_server_again (addresses : list in_addr) (a : in_addr)
    (l : list DnsServer) :
  (fun s => if decide (server_address s = a) then set_server_marked false s else s) <$>
    ((fun s => if decide (server_address s ∈ addresses)
               then set_server_marked false s else s) <$> l) =
  (fun s => if decide (server_address s ∈ addresses ++ [a])
            then set_server_marked false s else s) <$> l.
Proof.
  induction l as [|s l IH]; [done|].
  rewrite !fmap_cons, IH. f_equal.
  destruct (decide (server_address s ∈ addresses)) as [Hin|Hnin].
  - rewrite (decide_True (P := server_address s ∈ addresses ++ [a]))
      by (apply elem_of_app; by left).
    by case_decide.
  - destruct (decide (server_address s = a)) as [Ha|Ha].
    + by rewrite decide_True by (apply elem_of_app; right; by apply list_elem_of_singleton).
    + rewrite decide_False; [done|].
      intros [?|?%list_elem_of_singleton]%elem_of_app; done.
Qed.

Lemma unmark_new_servers (a : in_addr) (l : list in_addr) :
  (fun s => if decide (server_address s = a) then set_server_marked false s else s) <$>
    (server DNS_SERVER_SYSTEM <$> l) = server DNS_SERVER_SYSTEM <$> l.
Proof.
  induction l as [|x l IH]; [done|].
  rewrite !fmap_cons, IH. f_equal. by case_decide.
Qed.

Lemma unmark_unnamed_server (addresses : list in_addr) (a : in_addr)
    (l : list DnsServer) :
  a ∉ server_address <$> l ->
  (fun s => if decide (server_address s ∈ addresses ++ [a])
            then set_server_marked false s else s) <$> l =
  (fun s => if decide (server_address s ∈ addresses)
            then set_server_marked false s else s) <$> l.
Proof.
  induction l as [|s l IH]; [done|].
  rewrite fmap_cons, not_elem_of_cons. intros [Hs Hl].
  rewrite !fmap_cons, IH by done. f_equal. apply decide_ext.
  rewrite elem_of_app, list_elem_of_singleton. split; [|tauto].
  intros [?|?]; [done|]. congruence.
Qed.

(** One address more: what [manager_add_dns_server_by_string] does to
    the collection in the middle of a pass. *)
Lemma servers_in_pass_step (marked : list DnsServer) (addresses : list in_addr)
    (a : in_addr) :
  (if decide (a ∈ server_address <$> servers_in_pass marked addresses)
   then (fun s => if decide (server_address s = a)
                  then set_server_marked false s else s) <$>
          servers_in_pass marked addresses
   else servers_in_pass marked addresses ++
          [{| server_type := DNS_SERVER_SYSTEM; server_address := a;
              server_marked := false |}]) =
  servers_in_pass marked (addresses ++ [a]).
Proof.
  rewrite servers_in_pass_addresses.
  assert (a ∈ (server_address <$> marked) ++
                first_new (server_address <$> marked) addresses <->
          a ∈ server_address <$> marked \/ a ∈ addresses) as Hiff.
  { rewrite elem_of_app, elem_of_first_new.
    destruct (decide (a ∈ server_address <$> marked)); tauto. }
  unfold servers_in_pass. rewrite first_new_snoc.
  destruct (decide (a ∈ server_address <$> marked \/ a ∈ addresses)) as [Hin|Hnin].
  - rewrite decide_True by (by apply Hiff).
    rewrite fmap_app, unmark_named_server_again, unmark_new_servers.
    by rewrite app_nil_r.
  - rewrite decide_False by (by rewrite Hiff).
    rewrite unmark_unnamed_server by tauto.
    by rewrite fmap_app, app_assoc.
Qed.

Lemma mark_all_servers_addresses (l : list DnsServer) :
  server_address <$> dns_server_mark_all l = server_address <$> l.
Proof.
  unfold dns_server_mark_all. induction l as [|s l IH]; [done|].
  rewrite !fmap_cons, IH. f_equal. by case_decide.
Qed.

(** The sweep at the end of the pass. *)
Lemma sweep_servers_in_pass (old : list DnsServer) (addresses : list in_addr) :
  Forall (fun s => server_type s <> DNS_SERVER_SYSTEM -> server_marked s = false) old ->
  dns_server_unlink_marked (servers_in_pass (dns_server_mark_all old) addresses) =
    merged_servers old addresses.
Proof.
  intros Hold. unfold dns_server_unlink_marked, servers_in_pass, merged_servers.
  rewrite filter_app, mark_all_servers_addresses. f_equal.
  - unfold dns_server_mark_all.
    induction Hold as [|s l Hs _ IH]; [done|].
    rewrite !fmap_cons, !filter_cons, IH.
    clear IH. destruct s as [ty ad mk].
    cbn [server_type server_address server_marked set_server_marked] in *.
    destruct (decide (ty = DNS_SERVER_SYSTEM)) as [Hsys|Hother];
      destruct (decide (ad ∈ addresses)) as [Hin|Hnin];
      cbn [server_type server_address server_marked set_server_marked];
      repeat case_decide; try tauto; try done.
    rewrite fmap_cons. cbn [server_type server_address server_marked set_server_marked].
    by rewrite (Hs Hother).
  - generalize (first_new (server_address <$> old) addresses).
    intros l. induction l as [|x l IH]; [done|].
    rewrite fmap_cons, filter_cons, IH. by rewrite decide_True by done.
Qed.

Lemma domains_in_pass_nil (marked : list DnsSearchDomain) :
  domains_in_pass marked [] = marked.
Proof.
  unfold domains_in_pass. cbn [first_new]. rewrite fmap_nil, app_nil_r.
  induction marked as [|s l IH]; [done|].
  by rewrite fmap_cons, IH.
Qed.

Lemma domains_in_pass_names (marked : list DnsSearchDomain) (names : list string) :
  domain_name <$> domains_in_pass marked names =
    (domain_name <$> marked) ++ first_new (domain_name <$> marked) names.
Proof.
  unfold domains_in_pass. rewrite fmap_app. f_equal.
  - induction marked as [|s l IH]; [done|].
    rewrite !fmap_cons, IH. f_equal. by case_decide.
  - generalize (first_new (domain_name <$> marked) names).
    intros l. induction l as [|x l IH]; [done|]. by rewrite !fmap_cons, IH.
Qed.

Lemma unmark_named_domain_again (names : list string) (a : string)
    (l : list DnsSearchDomain) :
  (fun s => if decide (domain_name s = a) then set_domain_marked false s else s) <$>
    ((fun s => if decide (domain_name s ∈ names)
               then set_domain_marked false s else s) <$> l) =
  (fun s => if decide (domain_name s ∈ names ++ [a])
            then set_domain_marked false s else s) <$> l.
Proof.
  induction l as [|s l IH]; [done|].
  rewrite !fmap_cons, IH. f_equal.
  destruct (decide (domain_name s ∈ names)) as [Hin|Hnin].
  - rewrite (decide_True (P := domain_name s ∈ names ++ [a]))
      by (apply elem_of_app; by left).
    by case_decide.
  - destruct (decide (domain_name s = a)) as [Ha|Ha].
    + by rewrite decide_True by (apply elem_of_app; right; by apply list_elem_of_singleton).
    + rewrite decide_False; [done|].
      intros [?|?%list_elem_of_singleton]%elem_of_app; done.
Qed.

Lemma unmark_new_domains (a : string) (l : list string) :
  (fun s => if decide (domain_name s = a) then set_domain_marked false s else s) <$>
    (domain DNS_SERVER_SYSTEM <$> l) = domain DNS_SERVER_SYSTEM <$> l.
Proof.
  induction l as [|x l IH]; [done|].
  rewrite !fmap_cons, IH. f_equal. by case_decide.
Qed.

Lemma unmark_unnamed_domain (names : list string) (a : string)
    (l : list DnsSearchDomain) :
  a ∉ domain_name <$> l ->
  (fun s => if decide (domain_name s ∈ names ++ [a])
            then set_domain_marked false s else s) <$> l =
  (fun s => if decide (domain_name s ∈ names)
            then set_domain_marked false s else s) <$> l.
Proof.
  induction l as [|s l IH]; [done|].
  rewrite fmap_cons, not_elem_of_cons. intros [Hs Hl].
  rewrite !fmap_cons, IH by done. f_equal. apply decide_ext.
  rewrite elem_of_app, list_elem_of_singleton. split; [|tauto].
  intros [?|?]; [done|]. congruence.
Qed.

(** One search domain more: what the add-or-unmark step does. *)
Lemma domains_in_pass_step (marked : list DnsSearchDomain) (names : list string)
    (a : string) :
  (if decide (a ∈ domain_name <$> domains_in_pass marked names)
   then (fun s => if decide (domain_name s = a)
                  then set_domain_marked false s else s) <$>
          domains_in_pass marked names
   else domains_in_pass marked names ++
          [{| domain_type := DNS_SERVER_SYSTEM; domain_name := a;
              domain_marked := false |}]) =
  domains_in_pass marked (names ++ [a]).
Proof.
  rewrite domains_in_pass_names.
  assert (a ∈ (domain_name <$> marked) ++
                first_new (domain_name <$> marked) names <->
          a ∈ domain_name <$> marked \/ a ∈ names) as Hiff.
  { rewrite elem_of_app, elem_of_first_new.
    destruct (decide (a ∈ domain_name <$> marked)); tauto. }
  unfold domains_in_pass. rewrite first_new_snoc.
  destruct (decide (a ∈ domain_name <$> marked \/ a ∈ names)) as [Hin|Hnin].
  - rewrite decide_True by (by apply Hiff).
    rewrite fmap_app, unmark_named_domain_again, unmark_new_domains.
    by rewrite app_nil_r.
  - rewrite decide_False by (by rewrite Hiff).
    rewrite unmark_unnamed_domain by tauto.
    by rewrite fmap_app, app_assoc.
Qed.

Lemma mark_all_domains_names (l : list DnsSearchDomain) :
  domain_name <$> dns_search_domain_mark_all l = domain_name <$> l.
Proof.
  unfold dns_search_domain_mark_all. induction l as [|s l IH]; [done|].
  rewrite !fmap_cons, IH. f_equal. by case_decide.
Qed.

(** The sweep at the end of the pass. *)
Lemma sweep_domains_in_pass (old : list DnsSearchDomain) (names : list string) :
  Forall (fun s => domain_type s <> DNS_SERVER_SYSTEM -> domain_marked s = false) old ->
  dns_search_domain_unlink_marked (domains_in_pass (dns_search_domain_mark_all old) names) =
    merged_domains old names.
Proof.
  intros Hold. unfold dns_search_domain_unlink_marked, domains_in_pass, merged_domains.
  rewrite filter_app, mark_all_domains_names. f_equal.
  - unfold dns_search_domain_mark_all.
    induction Hold as [|s l Hs _ IH]; [done|].
    rewrite !fmap_cons, !filter_cons, IH.
    clear IH. destruct s as [ty ad mk].
    cbn [domain_type domain_name domain_marked set_domain_marked] in *.
    destruct (decide (ty = DNS_SERVER_SYSTEM)) as [Hsys|Hother];
      destruct (decide (ad ∈ names)) as [Hin|Hnin];
      cbn [domain_type domain_name domain_marked set_domain_marked];
      repeat case_decide; try tauto; try done.
    rewrite fmap_cons. cbn [domain_type domain_name domain_marked set_domain_marked].
    by rewrite (Hs Hother).
  - generalize (first_new (domain_name <$> old) names).
    intros l. induction l as [|x l IH]; [done|].
    rewrite fmap_cons, filter_cons, IH. by rewrite decide_True by done.
Qed.

(** The loop over the lines, one directive after the other. *)
Lemma add_dns_server_in_pass (m : Manager) (marked : list DnsServer)
    (addresses : list in_addr) (a : string) :
  dns_servers m = servers_in_pass marked addresses ->
  let m1 := (manager_add_dns_server_by_string m DNS_SERVER_SYSTEM a).2 in
  dns_servers m1 =
    servers_in_pass marked
      (addresses ++ match ParseServerAddress a with
                    | inr address => [address]
                    | inl _ => []
                    end) /\
  search_domains m1 = search_domains m.
Proof.
  intros Hm. unfold manager_add_dns_server_by_string.
  destruct (ParseServerAddress a) as [r|address]; cbn zeta.
  { by rewrite app_nil_r. }
  rewrite Hm. pose proof (servers_in_pass_step marked addresses address) as Hstep.
  destruct (decide (address ∈ server_address <$> servers_in_pass marked addresses));
    cbn [snd dns_servers search_domains set_dns_servers]; by rewrite Hstep.
Qed.

Lemma add_search_domain_in_pass (m : Manager) (marked : list DnsSearchDomain)
    (names : list string) (name : string) :
  search_domains m = domains_in_pass marked names ->
  search_domains (manager_add_search_domain m name) =
    domains_in_pass marked (names ++ [name]) /\
  dns_servers (manager_add_search_domain m name) = dns_servers m.
Proof.
  intros Hm. unfold manager_add_search_domain.
  rewrite Hm. pose proof (domains_in_pass_step marked names name) as Hstep.
  destruct (decide (name ∈ domain_name <$> domains_in_pass marked names));
    cbn [dns_servers search_domains set_search_domains]; by rewrite Hstep.
Qed.

Lemma add_search_domains_in_pass (tokens : list string) (m : Manager)
    (marked : list DnsSearchDomain) (names : list string) :
  search_domains m = domains_in_pass marked names ->
  let m1 := (add_search_domains tokens m).2 in
  search_domains m1 = domains_in_pass marked (names ++ parsed_tokens tokens) /\
  dns_servers m1 = dns_servers m.
Proof.
  revert m names. induction tokens as [|w tokens IH]; intros m names Hm; cbn zeta.
  { cbn. by rewrite app_nil_r. }
  cbn [add_search_domains parsed_tokens].
  destruct (ParseDomainToken w) as [r|name].
  { cbn. by rewrite app_nil_r. }
  destruct (add_search_domain_in_pass m marked names name Hm) as [Hd Hs].
  destruct (IH _ _ Hd) as [Hd' Hs'].
  split; [|congruence]. by rewrite Hd', <- app_assoc.
Qed.

Lemma read_line_in_pass (line : string) (m : Manager)
    (marked_servers : list DnsServer) (addresses : list in_addr)
    (marked_domains : list DnsSearchDomain) (names : list string) :
  dns_servers m = servers_in_pass marked_servers addresses ->
  search_domains m = domains_in_pass marked_domains names ->
  let m1 := (read_line line m).1 in
  dns_servers m1 = servers_in_pass marked_servers (addresses ++ line_addresses line) /\
  search_domains m1 = domains_in_pass marked_domains (names ++ line_domains line).
Proof.
  intros Hs Hd. unfold read_line, line_addresses, line_domains, classify. cbn zeta.
  destruct (is_comment _). { by rewrite !app_nil_r. }
  destruct (first_word _ "nameserver") as [a|].
  { destruct (add_dns_server_in_pass m marked_servers addresses a Hs) as [Hs1 Hd1].
    destruct (manager_add_dns_server_by_string m DNS_SERVER_SYSTEM a) as [r m1].
    cbn [fst snd] in *. rewrite app_nil_r. split; [done | congruence]. }
  assert (forall a, let m1 := (manager_parse_search_domains_and_warn m a).2 in
            dns_servers m1 = servers_in_pass marked_servers (addresses ++ []) /\
            search_domains m1 =
              domains_in_pass marked_domains (names ++ parsed_tokens (String.words a)))
    as Hsearch.
  { intros a. unfold manager_parse_search_domains_and_warn.
    destruct (add_search_domains_in_pass (String.words a) m marked_domains names Hd)
      as [Hd1 Hs1].
    cbn zeta. rewrite app_nil_r. split; [congruence | done]. }
  destruct (first_word _ "domain") as [a|].
  { specialize (Hsearch a). by destruct (manager_parse_search_domains_and_warn m a). }
  destruct (first_word _ "search") as [a|].
  { specialize (Hsearch a). by destruct (manager_parse_search_domains_and_warn m a). }
  by rewrite !app_nil_r.
Qed.

Lemma foreach_line_in_pass (lines : list string) (m : Manager)
    (marked_servers : list DnsServer) (addresses : list in_addr)
    (marked_domains : list DnsSearchDomain) (names : list string) :
  dns_servers m = servers_in_pass marked_servers addresses ->
  search_domains m = domains_in_pass marked_domains names ->
  let m1 := (foreach_line lines m).1 in
  dns_servers m1 = servers_in_pass marked_servers (addresses ++ file_addresses lines) /\
  search_domains m1 = domains_in_pass marked_domains (names ++ file_domains lines).
Proof.
  revert m addresses names.
  induction lines as [|line lines IH]; intros m addresses names Hs Hd; cbn zeta.
  { unfold file_addresses, file_domains. cbn. by rewrite !app_nil_r. }
  cbn [foreach_line].
  destruct (read_line_in_pass line m _ _ _ _ Hs Hd) as [Hs1 Hd1].
  destruct (read_line line m) as [m1 lg1]. cbn [fst] in *.
  destruct (IH m1 _ _ Hs1 Hd1) as [Hs2 Hd2].
  destruct (foreach_line lines m1) as [m2 lg2]. cbn [fst] in *.
  unfold file_addresses, file_domains. rewrite !fmap_cons. cbn [concat].
  by rewrite !app_assoc.
Qed.

(** The collections after a pass that parses the whole file. *)
Lemma parse_pass_merges (k : Kernel) (m : Manager) :
  others_unmarked m ->
  parse_pass_completes k m ->
  let m' := (manager_read_resolv_conf k m).1.2 in
  dns_servers m' = merged_servers (dns_servers m) (file_addresses (sys_lines k)) /\
  search_domains m' = merged_domains (search_domains m) (file_domains (sys_lines k)).
Proof.
  intros [Hos Hod] Hc. pose proof Hc as (_ & st & Hst & _).
  destruct (read_parse_pass k m st Hc Hst) as (_ & _ & _ & Hs & Hd).
  cbn zeta in *. rewrite Hs, Hd.
  destruct (foreach_line_in_pass (sys_lines k)
              (set_search_domains (dns_search_domain_mark_all (search_domains m))
                 (set_dns_servers (dns_server_mark_all (dns_servers m)) m))
              (dns_server_mark_all (dns_servers m)) []
              (dns_search_domain_mark_all (search_domains m)) [])
    as [Hs1 Hd1].
  { by rewrite servers_in_pass_nil. }
  { by rewrite domains_in_pass_nil. }
  cbn zeta in *. rewrite Hs1, Hd1. cbn [app].
  by rewrite sweep_servers_in_pass, sweep_domains_in_pass.
Qed.

(** C8: one reconciliation cycle, whatever its outcome, neither adds
    nor removes a record of other provenance in either collection (and
    leaves none of them marked).  A pass that parses the file, whatever
    its lines are, leaves in either collection exactly the records of
    other provenance and the records the file names again, in their old
    order, followed by a new record of system provenance for everything
    else the file names, in the order of the file; the records of system
    provenance that the file does not name are gone.  So with the
    servers [X] (system) and [B] (other) before, a file whose one line
    names [Y] leaves [X] (system) and [B] (other) when [Y] is [X], and
    [B] (other) and [Y] (system) when it is not. *)
Theorem merge_keeps_other_provenance (k : Kernel) (m : Manager) :
  others_unmarked m ->
  let m' := (manager_read_resolv_conf k m).1.2 in
  (other_servers (dns_servers m') = other_servers (dns_servers m) /\
   other_domains (search_domains m') = other_domains (search_domains m) /\
   others_unmarked m') /\
  (parse_pass_completes k m ->
   dns_servers m' = merged_servers (dns_servers m) (file_addresses (sys_lines k)) /\
   search_domains m' = merged_domains (search_domains m) (file_domains (sys_lines k))) /\
  (forall (X B Y : in_addr) (line : string),
     X <> B -> Y <> B ->
     dns_servers m = [server DNS_SERVER_SYSTEM X; server DNS_SERVER_OTHER B] ->
     parse_pass_completes k m ->
     sys_lines k = [line] ->
     nameserver_directive line Y ->
     dns_servers m' =
       if decide (Y = X)
       then [server DNS_SERVER_SYSTEM X; server DNS_SERVER_OTHER B]
       else [server DNS_SERVER_OTHER B; server DNS_SERVER_SYSTEM Y]).
Proof.
  intros Hu m'. split; [|split].
  - destruct (read_kept k m Hu) as (? & ? & ?). subst m'. auto.
  - intros Hc. by apply parse_pass_merges.
  - intros X B Y line HXB HYB Hm Hc Hlines (Hnc & a & Hword & Hparse).
    pose proof Hc as (_ & st & Hst & _).
    destruct (read_parse_pass k m st Hc Hst) as (_ & _ & _ & Hservers & _).
    subst m'. rewrite Hservers. clear Hservers.
    rewrite Hlines, Hm. cbn [foreach_line]. unfold read_line.
    rewrite Hnc, Hword. unfold manager_add_dns_server_by_string. rewrite Hparse.
    cbn [dns_servers set_search_domains set_dns_servers].
    unfold dns_server_mark_all, server. rewrite !fmap_cons, fmap_nil.
    cbn [server_type server_address set_server_marked].
    rewrite (decide_True (P := DNS_SERVER_SYSTEM = DNS_SERVER_SYSTEM)) by done.
    rewrite (decide_False (P := DNS_SERVER_OTHER = DNS_SERVER_SYSTEM)) by done.
    destruct (decide (Y = X)) as [->|HYX].
    + rewrite decide_True by (apply elem_of_cons; by left).
      cbn [fst snd dns_servers set_dns_servers fmap list_fmap
           server_address set_server_marked server_type server_marked].
      rewrite decide_True by done. rewrite decide_False by done.
      unfold dns_server_unlink_marked. by rewrite !filter_cons, filter_nil.
    + rewrite decide_False.
      2: { rewrite !elem_of_cons, elem_of_nil. cbn [server_address set_server_marked].
           intros [?|[?|[]]]; congruence. }
      cbn [fst snd dns_servers set_dns_servers].
      unfold dns_server_unlink_marked.
      by rewrite filter_app, !filter_cons, filter_nil.
Qed.

End ReaderFacts.

Lemma unchanged_mtime_is_noop_witness :
  let k := calm_kernel 100 ["nameserver 10.0.0.9"] in
  let m := example_manager 100000000 [server DNS_SERVER_SYSTEM (ipv4 10 0 0 1)] in
  @manager_read_resolv_conf example_externals k m = (0, m, []).
Proof.
  exact (@unchanged_mtime_is_noop example_externals
           (calm_kernel 100 ["nameserver 10.0.0.9"])
           (example_manager 100000000 [server DNS_SERVER_SYSTEM (ipv4 10 0 0 1)])
           (stat_of 1 10 100) eq_refl eq_refl).
Defined.

Lemma kernel_alias_is_alias (sec : Z) (lines : list string) :
  @is_alias (kernel_alias sec lines).
Proof. by exists (stat_of 7 42 sec), (stat_of 7 42 sec). Defined.

Lemma alias_is_noop_forever_witness :
  let ks := [kernel_alias 100 ["nameserver 10.0.0.1"];
             kernel_alias 200 ["nameserver 10.0.0.2"; "search example.com"]] in
  let m := example_manager 0 [] in
  Forall (fun k => @manager_read_resolv_conf example_externals k m = (0, m, [])) ks /\
  @reconcile_all example_externals ks m = m.
Proof.
  exact (@alias_is_noop_forever example_externals
           [kernel_alias 100 ["nameserver 10.0.0.1"];
            kernel_alias 200 ["nameserver 10.0.0.2"; "search example.com"]]
           (example_manager 0 [])
           (Forall_cons_2 _ _ _ (kernel_alias_is_alias _ _)
              (Forall_cons_2 _ _ _ (kernel_alias_is_alias _ _) (Forall_nil_2 _)))).
Defined.

Lemma kernel_eacces_soft_failure (m : Manager) :
  read_resolv_conf m = true ->
  @soft_read_failure example_externals kernel_eacces m EACCES.
Proof. intros Hflag. by apply stat_failure. Defined.

Lemma soft_read_failure_clears_and_returns_error_witness :
  let m := example_manager 0 [server DNS_SERVER_SYSTEM (ipv4 10 0 0 1)] in
  let res := @manager_read_resolv_conf example_externals kernel_eacces m in
  @soft_read_failure example_externals kernel_eacces m EACCES /\
  res.1.1 = - EACCES /\ dns_servers res.1.2 = [] /\
  resolv_conf_mtime res.1.2 = resolv_conf_mtime m.
Proof.
  intros m res.
  pose proof (@soft_read_failure_clears_and_returns_error example_externals
                kernel_eacces m EACCES (kernel_eacces_soft_failure m eq_refl))
    as (Hr & _ & Ht & Hs & _).
  split; [exact (kernel_eacces_soft_failure m eq_refl)|].
  split; [exact Hr|]. split; [exact Hs | exact Ht].
Defined.

(** C4 as stated fails: a stat refused with [EACCES] makes the function
    return -13, a failure, not 0. *)
Lemma soft_read_failure_is_not_success :
  let m := example_manager 0 [server DNS_SERVER_SYSTEM (ipv4 10 0 0 1)] in
  @soft_read_failure example_externals kernel_eacces m EACCES /\
  (@manager_read_resolv_conf example_externals kernel_eacces m).1.1 = -13 /\
  (@manager_read_resolv_conf example_externals kernel_eacces m).1.1 <> 0.
Proof. split; [by apply stat_failure|]. by vm_compute. Qed.

(** C3 (the code at one input): the path stat shows second 100, the
    handle of the file that was opened shows second 200; the pass stores
    100000000, the time stamp of the path stat. *)
Theorem handle_time_stamp_is_not_stored :
  let m := example_manager 0 [] in
  let m' := (@manager_read_resolv_conf example_externals kernel_replaced m).1.2 in
  sys_stat_etc kernel_replaced = Ok (stat_of 1 10 100) /\
  sys_fstat kernel_replaced = Ok (stat_of 1 11 200) /\
  dns_servers m' = [server DNS_SERVER_SYSTEM (ipv4 10 0 0 1)] /\
  resolv_conf_mtime m' = @timespec_load example_externals (st_mtim (stat_of 1 10 100)) /\
  resolv_conf_mtime m' <> @timespec_load example_externals (st_mtim (stat_of 1 11 200)).
Proof. repeat split; by vm_compute. Qed.

Lemma calm_kernel_parse_pass (sec : Z) (lines : list string) (m : Manager) :
  read_resolv_conf m = true ->
  sec * 1000000 + 0 / 1000 <> resolv_conf_mtime m ->
  @parse_pass_completes example_externals (calm_kernel sec lines) m.
Proof.
  intros Hflag Ht. split; [done|]. exists (stat_of 1 10 sec).
  repeat split; try done; by eexists.
Defined.

Lemma mtime_changes_exactly_on_parse_pass_witness :
  let k := calm_kernel 100 ["nameserver 10.0.0.1"] in
  let m := example_manager 0 [] in
  @parse_pass_completes example_externals k m /\
  resolv_conf_mtime (@manager_read_resolv_conf example_externals k m).1.2 <>
    resolv_conf_mtime m.
Proof.
  intros k m.
  split; [exact (calm_kernel_parse_pass 100 _ m eq_refl ltac:(done))|].
  exact (proj2 (@mtime_changes_exactly_on_parse_pass example_externals k m)
               (calm_kernel_parse_pass 100 _ m eq_refl ltac:(done))).
Defined.

(** C9 as stated fails: the stored time stamp is 200000000, the file now
    shows second 100; the pass stores 100000000, which is smaller. *)
Lemma stored_mtime_can_decrease :
  let k := calm_kernel 100 ["nameserver 10.0.0.1"] in
  let m := example_manager 200000000 [] in
  let m' := (@manager_read_resolv_conf example_externals k m).1.2 in
  resolv_conf_mtime m' = 100000000 /\ resolv_conf_mtime m' < resolv_conf_mtime m.
Proof. split; by vm_compute. Qed.

Lemma merge_keeps_other_provenance_witness :
  let A := ipv4 10 0 0 1 in
  let B := ipv4 10 0 0 2 in
  let C := ipv4 10 0 0 3 in
  let m := example_manager 0 [server DNS_SERVER_SYSTEM A; server DNS_SERVER_OTHER B] in
  let m2 := example_manager_with
              [server DNS_SERVER_SYSTEM A; server DNS_SERVER_OTHER B]
              [domain DNS_SERVER_SYSTEM "a.example"; domain DNS_SERVER_OTHER "b.example"] in
  let m2' := (@manager_read_resolv_conf example_externals
                (calm_kernel 100 example_file) m2).1.2 in
  others_unmarked m /\
  dns_servers (@manager_read_resolv_conf example_externals
                 (calm_kernel 100 ["nameserver 10.0.0.1"]) m).1.2 =
    [server DNS_SERVER_SYSTEM A; server DNS_SERVER_OTHER B] /\
  dns_servers (@manager_read_resolv_conf example_externals
                 (calm_kernel 100 ["nameserver 10.0.0.3"]) m).1.2 =
    [server DNS_SERVER_OTHER B; server DNS_SERVER_SYSTEM C] /\
  others_unmarked m2 /\
  dns_servers m2' = [server DNS_SERVER_OTHER B; server DNS_SERVER_SYSTEM C] /\
  search_domains m2' =
    [domain DNS_SERVER_OTHER "b.example"; domain DNS_SERVER_SYSTEM "lan";
     domain DNS_SERVER_SYSTEM "c.example"].
Proof.
  intros A B C m m2 m2'.
  assert (others_unmarked m) as Hu.
  { split; [|by constructor]. repeat constructor. }
  assert (others_unmarked m2) as Hu2.
  { split; repeat constructor. }
  split; [exact Hu|]. split; [|split; [|split; [exact Hu2|]]].
  - refine (proj2 (proj2 (@merge_keeps_other_provenance example_externals
                     (calm_kernel 100 ["nameserver 10.0.0.1"]) m Hu))
                  A B A "nameserver 10.0.0.1" _ _ eq_refl
                  (calm_kernel_parse_pass 100 _ m eq_refl _) eq_refl _);
      try done.
    split; [done|]. by exists "10.0.0.1".
  - refine (proj2 (proj2 (@merge_keeps_other_provenance example_externals
                     (calm_kernel 100 ["nameserver 10.0.0.3"]) m Hu))
                  A B C "nameserver 10.0.0.3" _ _ eq_refl
                  (calm_kernel_parse_pass 100 _ m eq_refl _) eq_refl _);
      try done.
    split; [done|]. by exists "10.0.0.3".
  - destruct (proj1 (proj2 (@merge_keeps_other_provenance example_externals
                              (calm_kernel 100 example_file) m2 Hu2))
                    (calm_kernel_parse_pass 100 _ m2 eq_refl ltac:(done)))
      as [Hs Hd].
    split; (etrans; [eassumption|]); by vm_compute.
Defined.

(** ** Publishing the managed file *)

Section PublisherFacts.
Context `{Externals}.

(** What [fail:] leaves when both unlinks succeed. *)
Lemma fail_unlinks (k : Kernel) (r : Z) (temp_path : string) (fs : gmap string File) :
  sys_unlink_private k = true ->
  sys_unlink_temp k = true ->
  (fail k r temp_path fs).1 = r /\
  (fail k r temp_path fs).2 !! PRIVATE_RESOLV_CONF = None /\
  (fail k r temp_path fs).2 !! temp_path = None /\
  (forall p, p <> PRIVATE_RESOLV_CONF -> p <> temp_path ->
             (fail k r temp_path fs).2 !! p = fs !! p).
Proof.
  intros Hp Ht. unfold fail, unlink. rewrite Hp, Ht. cbn [fst snd].
  split; [done|]. split; [|split].
  - destruct (decide (temp_path = PRIVATE_RESOLV_CONF)) as [->|Hne].
    + apply lookup_delete_eq.
    + rewrite lookup_delete_ne by done. apply lookup_delete_eq.
  - apply lookup_delete_eq.
  - intros p Hp1 Hp2. by rewrite !lookup_delete_ne.
Qed.

(** Replace the call of [fail] in the goal by its result and what
    [fail_unlinks] says about it. *)
Ltac at_fail_label Hup Hut Ho :=
  match goal with
  | |- context [fail ?k ?r ?t ?f] =>
      destruct (fail_unlinks k r t f Hup Hut) as (? & ? & ? & Ho);
      destruct (fail k r t f)
  end.

(** C2 (as the code has it): when the flush of the text or the rename
    fails, the negated [errno] is returned and the code unlinks both the
    managed file and the temporary file; with both unlinks succeeding no
    file is left at [PRIVATE_RESOLV_CONF] (a file published before is
    removed, not kept) and none at the temporary path, and every other
    file is as it was. *)
Theorem failed_publish_unlinks_target_and_temp
    (k : Kernel) (m : Manager) (fs : gmap string File)
    (temp_path : string) (errno : Z) :
  let m1 := (manager_read_resolv_conf k m).1.2 in
  0 <= (manager_compile_dns_servers m1).1 ->
  0 <= (manager_compile_search_domains m1).1 ->
  sys_fopen_temporary k = Ok temp_path ->
  sys_fflush k = Some errno \/ (sys_fflush k = None /\ sys_rename k = Some errno) ->
  0 < errno ->
  sys_unlink_private k = true ->
  sys_unlink_temp k = true ->
  let res := manager_write_resolv_conf k m fs in
  res.1.1.1 = - errno /\
  res.1.2 !! PRIVATE_RESOLV_CONF = None /\
  res.1.2 !! temp_path = None /\
  (forall p, p <> PRIVATE_RESOLV_CONF -> p <> temp_path -> res.1.2 !! p = fs !! p).
Proof.
  intros m1 Hdns Hdom Htemp Hfail Herrno Hup Hut res.
  subst res m1. unfold manager_write_resolv_conf.
  destruct (manager_read_resolv_conf k m) as [[r0 m1] lg0]. cbn [fst snd] in *.
  destruct (manager_compile_dns_servers m1) as [r1 dns].
  destruct (manager_compile_search_domains m1) as [r2 domains]. cbn [fst] in *.
  rewrite (proj2 (Z.ltb_ge _ _) Hdns), (proj2 (Z.ltb_ge _ _) Hdom), Htemp.
  unfold write_resolv_conf_contents.
  destruct (resolv_conf_text dns domains) as [text lg1].
  set (fs2 := if sys_fchmod k then _ else _).
  assert (forall text' p, p <> PRIVATE_RESOLV_CONF -> p <> temp_path ->
            alter (fun file => {| f_mode := f_mode file; f_data := text' |})
                  temp_path fs2 !! p = fs !! p) as Hother.
  { intros text' p Hp1 Hp2. rewrite lookup_alter_ne by done. subst fs2.
    destruct (sys_fchmod k); by rewrite ?lookup_insert_ne by done. }
  destruct Hfail as [Hflush | [Hflush Hrename]]; rewrite Hflush.
  - assert ((- errno <? 0) = true) as -> by (apply Z.ltb_lt; lia).
    at_fail_label Hup Hut Ho.
    cbn [fst snd] in *. repeat split; try done.
    intros p Hp1 Hp2. rewrite Ho by done. by apply Hother.
  - rewrite Z.ltb_irrefl, Hrename.
    at_fail_label Hup Hut Ho.
    cbn [fst snd] in *. repeat split; try done.
    intros p Hp1 Hp2. rewrite Ho by done. by apply Hother.
Qed.

(** C10: the result of [manager_read_resolv_conf] is not looked at.  When
    the read is a soft failure (it returns the value of
    [log_warning_errno] and clears the records of system provenance) and
    the steps of the write succeed, [manager_write_resolv_conf] compiles
    the collections of the manager as the read left it, publishes their
    text at [PRIVATE_RESOLV_CONF] and returns 0. *)
Theorem write_proceeds_after_failed_read
    (k : Kernel) (m : Manager) (fs : gmap string File)
    (temp_path : string) (errno : Z) :
  soft_read_failure k m errno ->
  let read := manager_read_resolv_conf k m in
  let dns := manager_compile_dns_servers read.1.2 in
  let domains := manager_compile_search_domains read.1.2 in
  0 <= dns.1 ->
  0 <= domains.1 ->
  sys_fopen_temporary k = Ok temp_path ->
  sys_fflush k = None ->
  sys_rename k = None ->
  let res := manager_write_resolv_conf k m fs in
  read.1.1 = log_warning_errno errno /\
  dns_servers read.1.2 = other_servers (dns_servers m) /\
  res.1.1.1 = 0 /\
  res.1.1.2 = read.1.2 /\
  res.1.2 !! PRIVATE_RESOLV_CONF =
    Some {| f_mode := if sys_fchmod k then 420 else 384;
            f_data := (resolv_conf_text dns.2 domains.2).1 |}.
Proof.
  intros Hsoft read dns domains Hdns Hdom Htemp Hflush Hrename res.
  assert (read.1.1 = log_warning_errno errno /\
          dns_servers read.1.2 = other_servers (dns_servers m)) as [Hr Hs].
  { subst read. by destruct (soft_read_failure_goes_to_clear k m errno Hsoft) as [fmt ->]. }
  split; [exact Hr|]. split; [exact Hs|].
  subst res dns domains read. unfold manager_write_resolv_conf.
  destruct (manager_read_resolv_conf k m) as [[r0 m1] lg0]. cbn [fst snd] in *.
  destruct (manager_compile_dns_servers m1) as [r1 dns].
  destruct (manager_compile_search_domains m1) as [r2 domains]. cbn [fst snd] in *.
  rewrite (proj2 (Z.ltb_ge _ _) Hdns), (proj2 (Z.ltb_ge _ _) Hdom), Htemp.
  unfold write_resolv_conf_contents.
  destruct (resolv_conf_text dns domains) as [text lg1]. cbn [fst].
  rewrite Hflush, Z.ltb_irrefl, Hrename. cbn [fst snd].
  split; [done|]. split; [done|].
  unfold rename. rewrite lookup_alter_eq.
  destruct (sys_fchmod k);
    rewrite ?lookup_insert_eq; cbn [fmap option_fmap option_map f_mode];
    by rewrite lookup_insert_eq.
Qed.

End PublisherFacts.

Lemma failed_publish_unlinks_target_and_temp_witness :
  let m := example_manager 0 [server DNS_SERVER_SYSTEM (ipv4 10 0 0 1)] in
  let fs : gmap string File := {[ PRIVATE_RESOLV_CONF := published_before ]} in
  let res := @manager_write_resolv_conf example_externals kernel_enospc m fs in
  sys_fflush kernel_enospc = Some ENOSPC /\
  res.1.1.1 = - ENOSPC /\
  res.1.2 !! PRIVATE_RESOLV_CONF = None /\
  res.1.2 !! TEMP_PATH = None.
Proof.
  intros m fs res.
  pose proof (@failed_publish_unlinks_target_and_temp example_externals
                kernel_enospc m fs TEMP_PATH ENOSPC
                ltac:(done) ltac:(done) eq_refl (or_introl eq_refl)
                ltac:(done) eq_refl eq_refl) as (Hr & Hp & Ht & _).
  split; [done|]. split; [exact Hr|]. split; [exact Hp | exact Ht].
Defined.

(** C2 as stated fails: the file published before is not left as it was
    when the flush fails; it is removed. *)
Lemma failed_publish_removes_published_file :
  let m := example_manager 0 [server DNS_SERVER_SYSTEM (ipv4 10 0 0 1)] in
  let fs : gmap string File := {[ PRIVATE_RESOLV_CONF := published_before ]} in
  let res := @manager_write_resolv_conf example_externals kernel_enospc m fs in
  sys_fflush kernel_enospc = Some ENOSPC /\
  fs !! PRIVATE_RESOLV_CONF = Some published_before /\
  res.1.2 !! PRIVATE_RESOLV_CONF = None /\
  res.1.2 !! PRIVATE_RESOLV_CONF <> fs !! PRIVATE_RESOLV_CONF.
Proof.
  intros m fs res.
  assert (res.1.2 !! PRIVATE_RESOLV_CONF = None) as Hgone by (by vm_compute).
  split; [done|]. split; [apply lookup_singleton_eq|]. split; [exact Hgone|].
  rewrite Hgone. subst fs. by rewrite lookup_singleton_eq.
Qed.

Lemma write_proceeds_after_failed_read_witness :
  let A := ipv4 10 0 0 1 in
  let B := ipv4 10 0 0 2 in
  let m := example_manager 0 [server DNS_SERVER_SYSTEM A; server DNS_SERVER_OTHER B] in
  let res := @manager_write_resolv_conf example_externals kernel_eacces m ∅ in
  @soft_read_failure example_externals kernel_eacces m EACCES /\
  (@manager_read_resolv_conf example_externals kernel_eacces m).1.1 = - EACCES /\
  res.1.1.1 = 0 /\
  res.1.2 !! PRIVATE_RESOLV_CONF =
    Some {| f_mode := 420;
            f_data := HEADER +:+ "nameserver 10.0.0.2" +:+ nl |}.
Proof.
  intros A B m res.
  pose proof (@write_proceeds_after_failed_read example_externals
                kernel_eacces m ∅ TEMP_PATH EACCES
                (kernel_eacces_soft_failure m eq_refl)
                ltac:(done) ltac:(done) eq_refl eq_refl eq_refl)
    as (Hr & _ & Hw & _ & Hf).
  split; [exact (kernel_eacces_soft_failure m eq_refl)|].
  split; [exact Hr|]. split; [exact Hw | exact Hf].
Defined.

(** * Further properties of the writer *)

Section WriterMore.
Context `{Externals}.

Lemma foreach_server_appends (dns : list DnsServer) (f : string) (count : Z) :
  exists rest, (foreach_server dns f count).1 = f +:+ rest.
Proof.
  revert f count. induction dns as [|s dns IH]; intros f count.
  - exists "". by rewrite string_app_nil_r.
  - cbn [foreach_server]. unfold write_resolv_conf_server.
    destruct (dns_server_string s) as [a|].
    + match goal with
      | |- context [foreach_server dns ?f1 ?c1] =>
          destruct (IH f1 c1) as [rest Hrest];
          destruct (foreach_server dns f1 c1) as [f2 lg2]
      end.
      cbn [fst] in *. subst f2.
      destruct (count =? MAXNS); rewrite !string_app_assoc; by eexists.
    + destruct (IH f count) as [rest Hrest].
      destruct (foreach_server dns f count) as [f2 lg2]. by exists rest.
Qed.

Lemma foreach_domain_appends (domains : list string) (f : string) (count length : Z) :
  exists rest, foreach_domain domains f count length = f +:+ rest.
Proof.
  revert f count length. induction domains as [|d domains IH]; intros f count length.
  - exists "". by rewrite string_app_nil_r.
  - cbn [foreach_domain]. unfold write_resolv_conf_search.
    destruct (_ || _).
    + match goal with
      | |- context [foreach_domain domains ?f1 ?c1 ?l1] =>
          destruct (IH f1 c1 l1) as [rest ->]
      end.
      destruct (count =? MAXDNSRCH), (length <=? 256);
        rewrite ?string_app_assoc; by eexists.
    + match goal with
      | |- context [foreach_domain domains ?f1 ?c1 ?l1] =>
          destruct (IH f1 c1 l1) as [rest ->]
      end.
      rewrite !string_app_assoc. by eexists.
Qed.

(** X1: whatever the servers and the search domains are, the text starts
    with the header: the writers only ever append to the stream. *)
Theorem resolv_conf_text_starts_with_header
    (dns : list DnsServer) (domains : list string) :
  exists rest, (resolv_conf_text dns domains).1 = HEADER +:+ rest.
Proof.
  unfold resolv_conf_text, write_servers, write_search.
  assert (exists rest1, (match dns with
                         | [] => (HEADER +:+ "# No DNS servers known." +:+ nl, [])
                         | _ => foreach_server dns HEADER 0
                         end).1 = HEADER +:+ rest1) as [rest1 H1].
  { destruct dns as [|s dns]; [by eexists|]. apply foreach_server_appends. }
  destruct (match dns with [] => _ | _ => _ end) as [f lg]. cbn [fst] in *. subst f.
  destruct domains as [|d domains]; [by eexists|].
  destruct (foreach_domain_appends (d :: domains) ((HEADER +:+ rest1) +:+ "search") 0 0)
    as [rest2 ->].
  rewrite !string_app_assoc. by eexists.
Qed.

Lemma omap_server_string_length (dns : list DnsServer) :
  (length (omap dns_server_string dns) <= length dns)%nat.
Proof.
  induction dns as [|s dns IH]; [done|].
  cbn [omap list_omap]. destruct (dns_server_string s); cbn [length]; lia.
Qed.

Lemma foreach_server_log (dns : list DnsServer) (f : string) (count : Z) :
  (foreach_server dns f count).2 =
    replicate (length dns - length (omap dns_server_string dns)) IGNORING_SERVER.
Proof.
  revert f count. induction dns as [|s dns IH]; intros f count; [done|].
  cbn [foreach_server omap list_omap]. unfold write_resolv_conf_server.
  pose proof (omap_server_string_length dns) as Hle.
  destruct (dns_server_string s) as [a|].
  - match goal with
    | |- context [foreach_server dns ?f1 ?c1] =>
        specialize (IH f1 c1); destruct (foreach_server dns f1 c1) as [f2 lg2]
    end.
    cbn [fst snd length] in *. by rewrite IH.
  - specialize (IH f count). destruct (foreach_server dns f count) as [f2 lg2].
    cbn [fst snd length] in *. rewrite IH.
    replace (S (length dns) - length (omap dns_server_string dns))%nat
      with (S (length dns - length (omap dns_server_string dns))) by lia.
    done.
Qed.

Lemma foreach_server_none (dns : list DnsServer) (f : string) (count : Z) :
  omap dns_server_string dns = [] -> (foreach_server dns f count).1 = f.
Proof.
  revert f count. induction dns as [|s dns IH]; intros f count Hnone; [done|].
  cbn [foreach_server]. unfold write_resolv_conf_server.
  cbn [omap list_omap] in Hnone.
  destruct (dns_server_string s) as [a|]; [done|].
  specialize (IH f count Hnone). by destruct (foreach_server dns f count).
Qed.

(** X2: the servers whose address has no textual form are the ones, and
    the only ones, that are logged as ignored, once each; and when the
    set is not empty but no server in it has a textual form the text has
    neither a [nameserver] line nor the line about no servers being
    known. *)
Theorem servers_without_string_are_logged_and_skipped
    (dns : list DnsServer) (domains : list string) :
  (resolv_conf_text dns domains).2 =
    replicate (length dns - length (omap dns_server_string dns)) IGNORING_SERVER /\
  (dns <> [] -> omap dns_server_string dns = [] ->
   (resolv_conf_text dns domains).1 = write_search domains HEADER).
Proof.
  unfold resolv_conf_text, write_servers. split.
  - destruct dns as [|s dns]; [done|].
    pose proof (foreach_server_log (s :: dns) HEADER 0) as Hlog.
    by destruct (foreach_server (s :: dns) HEADER 0).
  - intros Hne Hnone. destruct dns as [|s dns]; [done|].
    pose proof (foreach_server_none (s :: dns) HEADER 0 Hnone) as Hf.
    destruct (foreach_server (s :: dns) HEADER 0). cbn [fst] in *. by subst.
Qed.

End WriterMore.

Lemma servers_without_string_are_logged_and_skipped_witness :
  let dns := [server_without_string] in
  dns <> [] /\ omap (@dns_server_string example_externals) dns = [] /\
  @resolv_conf_text example_externals dns ["example.com"] =
    (HEADER +:+ "search example.com" +:+ nl, [IGNORING_SERVER]).
Proof.
  intros dns. split; [done|]. split; [done|].
  destruct (@servers_without_string_are_logged_and_skipped example_externals
              dns ["example.com"]) as [Hlog Htext].
  specialize (Htext ltac:(done) eq_refl).
  destruct (@resolv_conf_text example_externals dns ["example.com"]) as [text lg].
  cbn [fst snd] in *. by rewrite Hlog, Htext.
Defined.

(** ** The search line within and past its limits *)

Lemma strlen_nonneg (s : string) : 0 <= strlen s.
Proof. unfold strlen. lia. Qed.

Lemma total_strlen_nonneg (domains : list string) : 0 <= total_strlen domains.
Proof.
  induction domains as [|d domains IH]; [done|].
  cbn [total_strlen foldr]. fold (total_strlen domains).
  pose proof (strlen_nonneg d). lia.
Qed.

(** Once [MAXDNSRCH] domains are written every further domain is skipped
    and leaves both comments. *)
Lemma foreach_domain_capped (rest : list string) (f : string) (length : Z) :
  length <= 256 ->
  foreach_domain rest f MAXDNSRCH length = f +:+ skipped_comments (List.length rest).
Proof.
  intros Hlen. revert f. induction rest as [|d rest IH]; intros f.
  - cbn. by rewrite string_app_nil_r.
  - cbn [foreach_domain List.length skipped_comments]. unfold write_resolv_conf_search.
    rewrite Z.leb_refl, Z.eqb_refl. cbn [orb].
    rewrite (proj2 (Z.leb_le _ _) Hlen). rewrite IH.
    by rewrite !string_app_assoc.
Qed.

Lemma foreach_domain_within (first rest : list string) (f : string) (count length : Z) :
  0 <= count -> 0 <= length ->
  count + Z.of_nat (List.length first) <= MAXDNSRCH ->
  length + total_strlen first <= 256 ->
  rest = [] \/ count + Z.of_nat (List.length first) = MAXDNSRCH ->
  foreach_domain (first ++ rest) f count length =
    f +:+ search_words first +:+ skipped_comments (List.length rest).
Proof.
  revert f count length.
  induction first as [|d first IH]; intros f count length Hc Hl Hcount Htotal Hrest.
  - cbn [app search_words foldr List.length] in *.
    destruct Hrest as [->|Hfull].
    + cbn. by rewrite string_app_nil_r.
    + replace count with MAXDNSRCH by lia.
      unfold total_strlen in Htotal. cbn in Htotal.
      rewrite foreach_domain_capped by lia. done.
  - cbn [app foreach_domain]. unfold write_resolv_conf_search.
    cbn [total_strlen foldr List.length] in *. fold (total_strlen first) in *.
    pose proof (strlen_nonneg d) as Hd.
    pose proof (total_strlen_nonneg first) as Ht.
    unfold MAXDNSRCH in *.
    assert ((6 <=? count) = false) as -> by (apply Z.leb_gt; lia).
    assert ((256 <? length + strlen d) = false) as -> by (apply Z.ltb_ge; lia).
    cbn [orb]. rewrite !u32_small by lia.
    rewrite IH by first [lia | destruct Hrest; [by left | right; lia]].
    cbn [search_words foldr]. fold (search_words first).
    by rewrite !string_app_assoc.
Qed.

(** X3: at most [MAXDNSRCH] search domains of total length at most 256
    are all written, in order, on one line and without any comment. *)
Theorem search_line_within_limits (domains : list string) (f : string) :
  domains <> [] ->
  Z.of_nat (List.length domains) <= MAXDNSRCH ->
  total_strlen domains <= 256 ->
  write_search domains f = f +:+ "search" +:+ search_words domains +:+ nl.
Proof.
  intros Hne Hcount Htotal. unfold write_search.
  destruct domains as [|d domains]; [done|].
  pose proof (foreach_domain_within (d :: domains) [] (f +:+ "search") 0 0) as Hloop.
  rewrite app_nil_r in Hloop. rewrite Hloop by (try lia; by left).
  cbn [List.length skipped_comments]. by rewrite string_app_nil_r, !string_app_assoc.
Qed.

(** X4: when the first [MAXDNSRCH] domains fit into 256 characters they
    are written and none of the others is; each of the others leaves
    both comments on the line, the one about the total length too. *)
Theorem search_line_past_count_limit (first rest : list string) (f : string) :
  Z.of_nat (List.length first) = MAXDNSRCH ->
  total_strlen first <= 256 ->
  write_search (first ++ rest) f =
    f +:+ "search" +:+ search_words first +:+
      skipped_comments (List.length rest) +:+ nl.
Proof.
  intros Hcount Htotal. unfold write_search.
  destruct (first ++ rest) as [|d l] eqn:Happ.
  { apply app_eq_nil in Happ as [-> _]. cbn in Hcount. unfold MAXDNSRCH in Hcount. lia. }
  rewrite <- Happ.
  rewrite (foreach_domain_within first rest (f +:+ "search") 0 0) by (try lia; by right).
  by rewrite !string_app_assoc.
Qed.

Lemma search_line_within_limits_witness :
  let domains := ["example.com"; "lan"] in
  domains <> [] /\
  Z.of_nat (List.length domains) <= MAXDNSRCH /\
  total_strlen domains <= 256 /\
  write_search domains HEADER = HEADER +:+ "search example.com lan" +:+ nl.
Proof.
  intros domains. split; [done|]. split; [done|]. split; [done|].
  exact (search_line_within_limits domains HEADER ltac:(done) ltac:(done) ltac:(done)).
Defined.

Lemma search_line_past_count_limit_witness :
  let first := ["a"; "b"; "c"; "d"; "e"; "f"] in
  let rest := ["g"; "h"] in
  Z.of_nat (List.length first) = MAXDNSRCH /\
  total_strlen first <= 256 /\
  write_search (first ++ rest) "" =
    "search a b c d e f" +:+
    TOO_MANY_DOMAINS +:+ TOO_LONG_DOMAINS +:+
    TOO_MANY_DOMAINS +:+ TOO_LONG_DOMAINS +:+ nl.
Proof.
  intros first rest. split; [done|]. split; [done|].
  exact (search_line_past_count_limit first rest "" eq_refl ltac:(done)).
Defined.

(** * Further properties of the reader *)

Section ReaderMore.
Context `{Externals}.

Lemma unlink_all_servers_no_system (l : list DnsServer) :
  Forall (fun s => server_type s <> DNS_SERVER_SYSTEM) (dns_server_unlink_all l).
Proof.
  unfold dns_server_unlink_all. apply Forall_forall.
  by intros s [Hs _]%list_elem_of_filter.
Qed.

Lemma unlink_all_domains_no_system (l : list DnsSearchDomain) :
  Forall (fun d => domain_type d <> DNS_SERVER_SYSTEM) (dns_search_domain_unlink_all l).
Proof.
  unfold dns_search_domain_unlink_all. apply Forall_forall.
  by intros d [Hd _]%list_elem_of_filter.
Qed.

(** X5: a file that is not there is no error and changes nothing,
    whether it is missing at the stat or has vanished by the time it is
    opened: the result is 0, nothing is logged and the manager, the
    records read from the file earlier included, is as it was. *)
Theorem absent_file_is_noop (k : Kernel) (m : Manager) :
  sys_stat_etc k = Err ENOENT \/
  ((exists st, sys_stat_etc k = Ok st) /\ sys_fopen_etc k = Err ENOENT) ->
  manager_read_resolv_conf k m = (0, m, []).
Proof.
  intros Habsent. unfold manager_read_resolv_conf.
  destruct (read_resolv_conf m); cbn [negb]; [|done].
  destruct Habsent as [-> | [[st ->] Hopen]]; [done|].
  destruct (_ =? resolv_conf_mtime m); [done|].
  destruct (is_own_file k st); [done|]. by rewrite Hopen.
Qed.

(** X6: a read error in the middle of the file makes the function return
    the negated [errno]; what the lines before it had added is dropped
    again with every other record of system provenance, in both
    collections, and the stored time stamp is not touched, so that the
    file is read again next time. *)
Theorem read_error_clears_and_returns_errno
    (k : Kernel) (m : Manager) (st st' : struct_stat) (errno : Z) :
  read_resolv_conf m = true ->
  sys_stat_etc k = Ok st ->
  timespec_load (st_mtim st) <> resolv_conf_mtime m ->
  is_own_file k st = false ->
  sys_fopen_etc k = Ok () ->
  sys_fstat k = Ok st' ->
  sys_ferror k = Some errno ->
  let res := manager_read_resolv_conf k m in
  res.1.1 = - errno /\
  resolv_conf_mtime res.1.2 = resolv_conf_mtime m /\
  Forall (fun s => server_type s <> DNS_SERVER_SYSTEM) (dns_servers res.1.2) /\
  Forall (fun d => domain_type d <> DNS_SERVER_SYSTEM) (search_domains res.1.2).
Proof.
  intros Hflag Hst Ht Hown Hopen Hfstat Herr res. subst res.
  unfold manager_read_resolv_conf.
  rewrite Hflag, Hst. cbn [negb].
  rewrite (proj2 (Z.eqb_neq _ _) Ht), Hown, Hopen, Hfstat.
  pose proof (foreach_line_mtime (sys_lines k)
    (set_search_domains (dns_search_domain_mark_all (search_domains m))
       (set_dns_servers (dns_server_mark_all (dns_servers m)) m))) as Hm.
  cbn [search_domains set_dns_servers] in *.
  destruct (foreach_line _ _) as [m3 lg]. rewrite Herr.
  unfold clear. cbn [fst snd dns_servers search_domains resolv_conf_mtime
                     set_dns_servers set_search_domains] in *.
  split; [done|]. split; [done|].
  split; [apply unlink_all_servers_no_system | apply unlink_all_domains_no_system].
Qed.

(** X7: when the handle of the opened file cannot be statted, whatever
    the [errno] (there is no exception for [ENOENT] here), one error is
    logged, no line is parsed, the function returns the value of
    [log_error_errno], the records of system provenance are dropped and
    the stored time stamp is not touched. *)
Theorem fstat_failure_clears_and_returns_error
    (k : Kernel) (m : Manager) (st : struct_stat) (errno : Z) :
  read_resolv_conf m = true ->
  sys_stat_etc k = Ok st ->
  timespec_load (st_mtim st) <> resolv_conf_mtime m ->
  is_own_file k st = false ->
  sys_fopen_etc k = Ok () ->
  sys_fstat k = Err errno ->
  let res := manager_read_resolv_conf k m in
  res.1.1 = log_error_errno errno /\
  res.2 = [log_errno LOG_ERR errno "Failed to stat open file: %m"] /\
  resolv_conf_mtime res.1.2 = resolv_conf_mtime m /\
  dns_servers res.1.2 = other_servers (dns_servers m) /\
  search_domains res.1.2 = other_domains (search_domains m).
Proof.
  intros Hflag Hst Ht Hown Hopen Hfstat res. subst res.
  unfold manager_read_resolv_conf.
  rewrite Hflag, Hst. cbn [negb].
  by rewrite (proj2 (Z.eqb_neq _ _) Ht), Hown, Hopen, Hfstat.
Qed.

(** X8: a pass that has parsed the file makes the next invocation a
    no-op as long as the kernel gives the same answers: the second run
    returns 0, logs nothing and leaves the manager as the first run left
    it. *)
Theorem parse_pass_then_noop (k : Kernel) (m : Manager) :
  parse_pass_completes k m ->
  let m' := (manager_read_resolv_conf k m).1.2 in
  manager_read_resolv_conf k m' = (0, m', []).
Proof.
  intros Hc m'. pose proof Hc as (_ & st & Hst & _).
  destruct (read_parse_pass k m st Hc Hst) as (_ & _ & Hm & _).
  fold m' in Hm. unfold manager_read_resolv_conf at 1.
  destruct (read_resolv_conf m'); cbn [negb]; [|done].
  by rewrite Hst, Hm, Z.eqb_refl.
Qed.

(** X9: whenever the result is not 0 the manager has been through
    [clear]: no record of system provenance is left in either
    collection and the stored time stamp is the one from before.  On
    the pass that parses the file the result is 0 whatever its lines
    are: a line that does not parse is logged and does not fail the
    read. *)
Theorem nonzero_result_means_cleared (k : Kernel) (m : Manager) :
  let res := manager_read_resolv_conf k m in
  (res.1.1 <> 0 ->
   resolv_conf_mtime res.1.2 = resolv_conf_mtime m /\
   Forall (fun s => server_type s <> DNS_SERVER_SYSTEM) (dns_servers res.1.2) /\
   Forall (fun d => domain_type d <> DNS_SERVER_SYSTEM) (search_domains res.1.2)) /\
  (parse_pass_completes k m -> res.1.1 = 0).
Proof.
  intros res. subst res. split.
  - intros Hr.
    destruct (read_paths k m) as [Hc | [Hnoop | (r & m0 & lg & Hclear & Hm0)]].
    + pose proof Hc as (_ & st & Hst & _).
      by destruct (read_parse_pass k m st Hc Hst) as (Hzero & _).
    + by rewrite Hnoop in Hr.
    + rewrite Hclear. unfold clear.
      cbn [fst snd dns_servers search_domains resolv_conf_mtime
           set_dns_servers set_search_domains].
      split; [done|].
      split; [apply unlink_all_servers_no_system | apply unlink_all_domains_no_system].
  - intros Hc. pose proof Hc as (_ & st & Hst & _).
    by destruct (read_parse_pass k m st Hc Hst) as (Hzero & _).
Qed.

End ReaderMore.

Section ReaderSelection.
Context `{Externals}.

(** X10: the pass that parses the file ends with the current server
    pointing at the first server of the collection as the sweep has left
    it (at none when the collection is empty), and with the cache of the
    unicast scope, if there is one, empty. *)
Theorem current_server_and_cache_follow_parse_pass (k : Kernel) (m : Manager) :
  parse_pass_completes k m ->
  let m' := (manager_read_resolv_conf k m).1.2 in
  current_dns_server m' = head (dns_servers m') /\
  (forall scope, unicast_scope m' = Some scope -> cache scope = []).
Proof.
  intros (Hflag & st & Hst & Ht & Hown & [u Hopen] & [st' Hfstat] & Herr) m'.
  subst m'. unfold manager_read_resolv_conf.
  rewrite Hflag, Hst. cbn [negb].
  rewrite (proj2 (Z.eqb_neq _ _) Ht), Hown, Hopen, Hfstat.
  destruct (foreach_line _ _) as [m3 lg]. rewrite Herr.
  cbn [fst snd current_dns_server unicast_scope dns_servers
       dns_cache_flush manager_set_dns_server set_search_domains
       set_dns_servers set_resolv_conf_mtime search_domains].
  split; [done|].
  intros scope Hscope. destruct (unicast_scope m3); [|done].
  cbn in Hscope. by injection Hscope as <-.
Qed.

End ReaderSelection.

Lemma absent_file_is_noop_witness :
  let m := example_manager 0 [server DNS_SERVER_SYSTEM (ipv4 10 0 0 1)] in
  sys_fopen_etc kernel_vanished = Err ENOENT /\
  @manager_read_resolv_conf example_externals kernel_vanished m = (0, m, []).
Proof.
  intros m. split; [done|].
  exact (@absent_file_is_noop example_externals kernel_vanished m
           (or_intror (conj (ex_intro _ (stat_of 1 10 100) eq_refl) eq_refl))).
Defined.

Lemma read_error_clears_and_returns_errno_witness :
  let m := example_manager 0 [server DNS_SERVER_SYSTEM (ipv4 10 0 0 1);
                              server DNS_SERVER_OTHER (ipv4 10 0 0 2)] in
  let res := @manager_read_resolv_conf example_externals kernel_eio m in
  sys_ferror kernel_eio = Some EIO /\
  res.1.1 = - EIO /\
  resolv_conf_mtime res.1.2 = 0 /\
  Forall (fun s => server_type s <> DNS_SERVER_SYSTEM) (dns_servers res.1.2).
Proof.
  intros m res.
  destruct (@read_error_clears_and_returns_errno example_externals kernel_eio m
              (stat_of 1 10 100) (stat_of 1 10 100) EIO
              eq_refl eq_refl ltac:(done) eq_refl eq_refl eq_refl eq_refl)
    as (Hr & Ht & Hs & _).
  split; [done|]. split; [exact Hr|]. split; [exact Ht | exact Hs].
Defined.

Lemma fstat_failure_clears_and_returns_error_witness :
  let m := example_manager 0 [server DNS_SERVER_SYSTEM (ipv4 10 0 0 1);
                              server DNS_SERVER_OTHER (ipv4 10 0 0 2)] in
  let res := @manager_read_resolv_conf example_externals kernel_fstat_eio m in
  sys_fstat kernel_fstat_eio = Err EIO /\
  res.1.1 = - EIO /\
  dns_servers res.1.2 = [server DNS_SERVER_OTHER (ipv4 10 0 0 2)].
Proof.
  intros m res.
  destruct (@fstat_failure_clears_and_returns_error example_externals kernel_fstat_eio m
              (stat_of 1 10 100) EIO
              eq_refl eq_refl ltac:(done) eq_refl eq_refl eq_refl)
    as (Hr & _ & _ & Hs & _).
  split; [done|]. split; [exact Hr | exact Hs].
Defined.

Lemma parse_pass_then_noop_witness :
  let k := calm_kernel 100 ["nameserver 10.0.0.1"; "search example.com"] in
  let m := example_manager 0 [] in
  let m' := (@manager_read_resolv_conf example_externals k m).1.2 in
  @parse_pass_completes example_externals k m /\
  dns_servers m' = [server DNS_SERVER_SYSTEM (ipv4 10 0 0 1)] /\
  @manager_read_resolv_conf example_externals k m' = (0, m', []).
Proof.
  intros k m m'.
  split; [exact (calm_kernel_parse_pass 100 _ m eq_refl ltac:(done))|].
  split; [done|].
  exact (@parse_pass_then_noop example_externals k m
           (calm_kernel_parse_pass 100 _ m eq_refl ltac:(done))).
Defined.

Lemma nonzero_result_means_cleared_witness :
  let m := example_manager 0 [server DNS_SERVER_SYSTEM (ipv4 10 0 0 1)] in
  let res := @manager_read_resolv_conf example_externals kernel_eio m in
  res.1.1 <> 0 /\ resolv_conf_mtime res.1.2 = resolv_conf_mtime m /\
  dns_servers res.1.2 = [].
Proof.
  intros m res.
  assert (res.1.1 <> 0) as Hr by done.
  destruct (proj1 (@nonzero_result_means_cleared example_externals kernel_eio m) Hr)
    as (Ht & _ & _).
  split; [exact Hr|]. split; [exact Ht | done].
Defined.

Lemma current_server_and_cache_follow_parse_pass_witness :
  let k := calm_kernel 100 ["nameserver 10.0.0.2"; "nameserver 10.0.0.3"] in
  let m := example_manager 0 [server DNS_SERVER_SYSTEM (ipv4 10 0 0 1)] in
  let m' := (@manager_read_resolv_conf example_externals k m).1.2 in
  @parse_pass_completes example_externals k m /\
  current_dns_server m' = head (dns_servers m') /\
  current_dns_server m' = Some (server DNS_SERVER_SYSTEM (ipv4 10 0 0 2)) /\
  unicast_scope m' = Some {| cache := [] |}.
Proof.
  intros k m m'.
  split; [exact (calm_kernel_parse_pass 100 _ m eq_refl ltac:(done))|].
  destruct (@current_server_and_cache_follow_parse_pass example_externals k m
              (calm_kernel_parse_pass 100 _ m eq_refl ltac:(done)))
    as [Hcur Hscope].
  split; [exact Hcur|]. split; by vm_compute.
Defined.

(** * Further properties of the publisher *)

Section PublisherMore.
Context `{Externals}.

(** The temporary file once the text is in it. *)
Lemma temp_file_before_rename (k : Kernel) (temp_path text : string) (fs : gmap string File) :
  let fs1 := <[temp_path := {| f_mode := 384; f_data := "" |}]> fs in
  let fs2 := if sys_fchmod k
             then <[temp_path := {| f_mode := 420; f_data := "" |}]> fs1 else fs1 in
  let fs3 := alter (fun file => {| f_mode := f_mode file; f_data := text |}) temp_path fs2 in
  fs3 !! temp_path = Some {| f_mode := if sys_fchmod k then 420 else 384; f_data := text |} /\
  (forall p, p <> temp_path -> fs3 !! p = fs !! p).
Proof.
  intros fs1 fs2 fs3. subst fs3 fs2 fs1. split.
  - rewrite lookup_alter_eq. destruct (sys_fchmod k); by rewrite lookup_insert_eq.
  - intros p Hp. rewrite lookup_alter_ne by done.
    destruct (sys_fchmod k); by rewrite ?lookup_insert_ne by done.
Qed.

(** X11: when every step succeeds, whatever the read before it did, the
    function returns 0, the managed path holds the whole text with the
    mode of the temporary file (0644 when [fchmod] went through), the
    temporary file is gone and no other file has changed. *)
Theorem successful_publish (k : Kernel) (m : Manager) (fs : gmap string File)
    (temp_path : string) :
  let m1 := (manager_read_resolv_conf k m).1.2 in
  let dns := manager_compile_dns_servers m1 in
  let domains := manager_compile_search_domains m1 in
  0 <= dns.1 ->
  0 <= domains.1 ->
  sys_fopen_temporary k = Ok temp_path ->
  temp_path <> PRIVATE_RESOLV_CONF ->
  sys_fflush k = None ->
  sys_rename k = None ->
  let res := manager_write_resolv_conf k m fs in
  res.1.1.1 = 0 /\
  res.1.2 !! PRIVATE_RESOLV_CONF =
    Some {| f_mode := if sys_fchmod k then 420 else 384;
            f_data := (resolv_conf_text dns.2 domains.2).1 |} /\
  res.1.2 !! temp_path = None /\
  (forall p, p <> PRIVATE_RESOLV_CONF -> p <> temp_path -> res.1.2 !! p = fs !! p).
Proof.
  intros m1 dns domains Hdns Hdom Htemp Hne Hflush Hrename res.
  subst res dns domains m1. unfold manager_write_resolv_conf.
  destruct (manager_read_resolv_conf k m) as [[r0 m1] lg0]. cbn [fst snd] in *.
  destruct (manager_compile_dns_servers m1) as [r1 dns].
  destruct (manager_compile_search_domains m1) as [r2 domains]. cbn [fst snd] in *.
  rewrite (proj2 (Z.ltb_ge _ _) Hdns), (proj2 (Z.ltb_ge _ _) Hdom), Htemp.
  unfold write_resolv_conf_contents.
  destruct (resolv_conf_text dns domains) as [text lg1]. cbn [fst].
  rewrite Hflush, Z.ltb_irrefl, Hrename. cbn [fst snd].
  destruct (temp_file_before_rename k temp_path text fs) as [Hfile Hother].
  cbn zeta in Hfile, Hother.
  unfold rename. rewrite Hfile.
  split; [done|]. split; [by rewrite lookup_insert_eq|].
  split.
  - rewrite lookup_insert_ne by done. apply lookup_delete_eq.
  - intros p Hp1 Hp2. rewrite lookup_insert_ne by done.
    rewrite lookup_delete_ne by done. by apply Hother.
Qed.

(** X12: when one of the two sets cannot be compiled or no temporary
    file can be created, the error is returned and no file is touched:
    what was published before stays. *)
Theorem early_failure_keeps_files (k : Kernel) (m : Manager) (fs : gmap string File)
    (r : Z) :
  let m1 := (manager_read_resolv_conf k m).1.2 in
  let dns := manager_compile_dns_servers m1 in
  let domains := manager_compile_search_domains m1 in
  (dns.1 = r /\ r < 0) \/
  (0 <= dns.1 /\ domains.1 = r /\ r < 0) \/
  (0 <= dns.1 /\ 0 <= domains.1 /\ sys_fopen_temporary k = Err (- r)) ->
  let res := manager_write_resolv_conf k m fs in
  res.1.1.1 = r /\ res.1.2 = fs.
Proof.
  intros m1 dns domains Hfail res.
  subst res dns domains m1. unfold manager_write_resolv_conf.
  destruct (manager_read_resolv_conf k m) as [[r0 m1] lg0]. cbn [fst snd] in *.
  destruct (manager_compile_dns_servers m1) as [r1 dns].
  destruct (manager_compile_search_domains m1) as [r2 domains]. cbn [fst snd] in *.
  destruct Hfail as [[-> Hr] | [(Hdns & -> & Hr) | (Hdns & Hdom & Htemp)]].
  - by rewrite (proj2 (Z.ltb_lt _ _) Hr).
  - by rewrite (proj2 (Z.ltb_ge _ _) Hdns), (proj2 (Z.ltb_lt _ _) Hr).
  - rewrite (proj2 (Z.ltb_ge _ _) Hdns), (proj2 (Z.ltb_ge _ _) Hdom), Htemp.
    cbn [fst snd]. split; [lia | done].
Qed.

(** X13: the managed path never shows a part of the text.  With the
    temporary file at another path and a positive [errno] for a failed
    flush, after any invocation the managed path holds what it held
    before, or nothing, or (only when the result is 0) the whole text. *)
Theorem managed_file_is_never_partial (k : Kernel) (m : Manager) (fs : gmap string File) :
  (forall temp_path, sys_fopen_temporary k = Ok temp_path ->
                     temp_path <> PRIVATE_RESOLV_CONF) ->
  (forall errno, sys_fflush k = Some errno -> 0 < errno) ->
  let m1 := (manager_read_resolv_conf k m).1.2 in
  let text := (resolv_conf_text (manager_compile_dns_servers m1).2
                                (manager_compile_search_domains m1).2).1 in
  let res := manager_write_resolv_conf k m fs in
  res.1.2 !! PRIVATE_RESOLV_CONF = fs !! PRIVATE_RESOLV_CONF \/
  res.1.2 !! PRIVATE_RESOLV_CONF = None \/
  (res.1.1.1 = 0 /\
   res.1.2 !! PRIVATE_RESOLV_CONF =
     Some {| f_mode := if sys_fchmod k then 420 else 384; f_data := text |}).
Proof.
  intros Htemp Herrno m1 text res.
  subst res text m1. unfold manager_write_resolv_conf.
  destruct (manager_read_resolv_conf k m) as [[r0 m1] lg0]. cbn [fst snd] in *.
  destruct (manager_compile_dns_servers m1) as [r1 dns].
  destruct (r1 <? 0); [by left|].
  destruct (manager_compile_search_domains m1) as [r2 domains]. cbn [fst snd] in *.
  destruct (r2 <? 0); [by left|].
  destruct (sys_fopen_temporary k) as [temp_path|errno]; [|by left].
  specialize (Htemp temp_path eq_refl).
  unfold write_resolv_conf_contents.
  destruct (resolv_conf_text dns domains) as [text lg1]. cbn [fst].
  assert (forall (r : Z) (text' : string),
            let fs3 := alter (fun file => {| f_mode := f_mode file; f_data := text' |})
                         temp_path
                         (if sys_fchmod k
                          then <[temp_path := {| f_mode := 420; f_data := "" |}]>
                                 (<[temp_path := {| f_mode := 384; f_data := "" |}]> fs)
                          else <[temp_path := {| f_mode := 384; f_data := "" |}]> fs) in
            (fail k r temp_path fs3).2 !! PRIVATE_RESOLV_CONF = fs !! PRIVATE_RESOLV_CONF \/
            (fail k r temp_path fs3).2 !! PRIVATE_RESOLV_CONF = None) as Hfail.
  { intros r text' fs3.
    destruct (temp_file_before_rename k temp_path text' fs) as [_ Hother].
    cbn zeta in Hother. fold fs3 in Hother.
    unfold fail, unlink. cbn [snd].
    destruct (sys_unlink_private k), (sys_unlink_temp k).
    - right. rewrite lookup_delete_ne by done. apply lookup_delete_eq.
    - right. apply lookup_delete_eq.
    - left. rewrite lookup_delete_ne by done. by apply Hother.
    - left. by apply Hother. }
  destruct (sys_fflush k) as [errno|] eqn:Hflush.
  - specialize (Herrno errno eq_refl).
    assert ((- errno <? 0) = true) as -> by (apply Z.ltb_lt; lia).
    specialize (Hfail (- errno) (String.substring 0 (sys_written k) text)).
    cbn zeta in Hfail. destruct (fail k _ temp_path _) as [r' fs4].
    cbn [fst snd] in *. destruct Hfail; [by left | by right; left].
  - rewrite Z.ltb_irrefl. destruct (sys_rename k) as [errno|].
    + specialize (Hfail (- errno) text).
      cbn zeta in Hfail. destruct (fail k _ temp_path _) as [r' fs4].
      cbn [fst snd] in *. destruct Hfail; [by left | by right; left].
    + right; right. cbn [fst snd]. split; [done|].
      destruct (temp_file_before_rename k temp_path text fs) as [Hfile _].
      cbn zeta in Hfile. unfold rename. rewrite Hfile. by rewrite lookup_insert_eq.
Qed.

End PublisherMore.

Lemma successful_publish_witness :
  let k := calm_kernel 100 ["nameserver 10.0.0.1"; "search example.com"] in
  let m := example_manager 0 [] in
  let fs : gmap string File := {[ PRIVATE_RESOLV_CONF := published_before ]} in
  let res := @manager_write_resolv_conf example_externals k m fs in
  res.1.1.1 = 0 /\
  res.1.2 !! PRIVATE_RESOLV_CONF =
    Some {| f_mode := 420;
            f_data := HEADER +:+ "nameserver 10.0.0.1" +:+ nl +:+
                      "search example.com" +:+ nl |} /\
  res.1.2 !! TEMP_PATH = None.
Proof.
  intros k m fs res.
  pose proof (@successful_publish example_externals k m fs TEMP_PATH
                ltac:(by vm_compute) ltac:(by vm_compute) eq_refl ltac:(done)
                eq_refl eq_refl)
    as (Hr & Hf & Ht & _).
  split; [exact Hr|]. split; [|exact Ht].
  etrans; [exact Hf|]. by vm_compute.
Defined.

Lemma early_failure_keeps_files_witness :
  let m := example_manager 0 [server DNS_SERVER_SYSTEM (ipv4 10 0 0 1)] in
  let fs : gmap string File := {[ PRIVATE_RESOLV_CONF := published_before ]} in
  let res := @manager_write_resolv_conf example_externals kernel_no_temp m fs in
  sys_fopen_temporary kernel_no_temp = Err EACCES /\
  res.1.1.1 = - EACCES /\ res.1.2 = fs.
Proof.
  intros m fs res. split; [done|].
  pose proof (@early_failure_keeps_files example_externals kernel_no_temp m fs
                (- EACCES)) as Hkeeps.
  cbv zeta in Hkeeps. apply Hkeeps. right; right.
  split; [by vm_compute|]. split; [by vm_compute|]. reflexivity.
Defined.

Lemma managed_file_is_never_partial_witness :
  let m := example_manager 0 [server DNS_SERVER_SYSTEM (ipv4 10 0 0 1)] in
  let fs : gmap string File := {[ PRIVATE_RESOLV_CONF := published_before ]} in
  let res := @manager_write_resolv_conf example_externals kernel_rename_fails m fs in
  (forall temp_path, sys_fopen_temporary kernel_rename_fails = Ok temp_path ->
                     temp_path <> PRIVATE_RESOLV_CONF) /\
  sys_rename kernel_rename_fails = Some EACCES /\
  (res.1.2 !! PRIVATE_RESOLV_CONF = fs !! PRIVATE_RESOLV_CONF \/
   res.1.2 !! PRIVATE_RESOLV_CONF = None \/
   res.1.1.1 = 0).
Proof.
  intros m fs res.
  assert (forall temp_path, sys_fopen_temporary kernel_rename_fails = Ok temp_path ->
                            temp_path <> PRIVATE_RESOLV_CONF) as Htemp.
  { intros temp_path Heq. injection Heq as <-. done. }
  split; [exact Htemp|]. split; [done|].
  destruct (@managed_file_is_never_partial example_externals kernel_rename_fails m fs
              Htemp ltac:(intros errno Hflush; discriminate Hflush))
    as [Hsame | [Hnone | [Hzero _]]].
  - by left.
  - by right; left.
  - by right; right.
Defined.
